(** * netauto: a shallow embedding of the multi-device orchestration engine

    The development follows the Python package module by module:
    [secrets_manager] (credential lookup), [connect] (the [NetworkDevice]
    session wrapper), [validators] ([ConfigValidator]) and [tasks]
    ([ConfigurationTask]).

    External collaborators (the process environment, Netmiko, Jinja2, the
    clock and the file system) are not part of the package; they are
    gathered in one record [World] over which every definition is
    parametrised.  A Netmiko connection is a stateful object: its methods
    take the connection state and give back the answer with the new state.

    Python exceptions are values of [exn]; a method that may raise and that
    mutates an object is a function [S -> (exn + A) * S]: the mutations done
    before a [raise] survive it, as they do in Python.  Only subclasses of
    [Exception] are modelled ([except Exception] does not catch the others).

    Strings are sequences of code points below 256, the range on which the
    character classes [\d], [\s] and [.] of [re] are given in full here. *)

From Stdlib Require Import String Ascii List ZArith Bool Lia Permutation.
From Stdlib Require Import DecimalString.
From Stdlib Require DecimalFacts DecimalPos DecimalZ.
Import ListNotations.
Local Open Scope string_scope.
Local Open Scope list_scope.

Set Implicit Arguments.

(** ** Exceptions *)

Inductive exn : Type :=
| DeviceConnectionError (msg : string)      (* netauto.connect *)
| ValidationError (msg : string)            (* netauto.validators *)
| ValueError (msg : string)
| KeyError (key : string)
| TemplateNotFound (msg : string)           (* jinja2 *)
| NetmikoTimeoutException (msg : string)
| NetmikoAuthenticationException (msg : string)
| SSHException (msg : string)               (* paramiko *)
| OtherException (msg : string).            (* any other subclass of Exception *)

(** [str(e)].  A [KeyError] prints the [repr] of its key (the only key
    looked up with [d[k]] here is the literal ["host"]). *)
Definition str_exn (e : exn) : string :=
  match e with
  | DeviceConnectionError m => m
  | ValidationError m => m
  | ValueError m => m
  | KeyError k => "'" ++ k ++ "'"
  | TemplateNotFound m => m
  | NetmikoTimeoutException m => m
  | NetmikoAuthenticationException m => m
  | SSHException m => m
  | OtherException m => m
  end.

(** ** Python values *)

(** Truth value of an [Optional[str]]: [None] and [""] are false. *)
Definition truthy (o : option string) : bool :=
  match o with
  | Some (String _ _) => true
  | _ => false
  end.

(** [a or b] on [Optional[str]]. *)
Definition py_or (a b : option string) : option string :=
  if truthy a then a else b.

(** [d.get(k, default)] on an optional entry. *)
Definition get_default {A : Type} (o : option A) (d : A) : A :=
  match o with
  | Some v => v
  | None => d
  end.

(** [str(n)] for an [int]. *)
Definition str_int (n : Z) : string := NilZero.string_of_int (Z.to_int n).

(** Truth value of an optional list or mapping: [None] and the empty
    container are false. *)
Definition truthy_list {A : Type} (o : option (list A)) : bool :=
  match o with
  | Some (_ :: _) => true
  | _ => false
  end.

(** ** A state monad with exceptions *)

Section Monad.
Context {S : Type}.

Definition M (A : Type) : Type := S -> (exn + A) * S.

Definition ret {A} (a : A) : M A := fun s => (inr a, s).

Definition raise {A} (e : exn) : M A := fun s => (inl e, s).

Definition bind {A B} (m : M A) (k : A -> M B) : M B :=
  fun s =>
    match m s with
    | (inr a, s') => k a s'
    | (inl e, s') => (inl e, s')
    end.

Definition gets {A} (f : S -> A) : M A := fun s => (inr (f s), s).

Definition modify (f : S -> S) : M unit := fun s => (inr tt, f s).

(** [try: m except Exception as e: h e] *)
Definition try_except {A} (m : M A) (h : exn -> M A) : M A :=
  fun s =>
    match m s with
    | (inl e, s') => h e s'
    | r => r
    end.

(** [try: m finally: f], for a [finally] block that does not raise. *)
Definition try_finally {A} (m : M A) (f : S -> S) : M A :=
  fun s => let (r, s') := m s in (r, f s').
End Monad.

Arguments M : clear implicits.

Declare Scope py_scope.
Delimit Scope py_scope with py.
Notation "x <- m ;; k" := (bind m (fun x => k))
  (at level 61, m at next level, right associativity) : py_scope.
Notation "m ;;; k" := (bind m (fun _ => k))
  (at level 61, right associativity) : py_scope.
Local Open Scope py_scope.

(** Run a computation on a part of the state. *)
Definition zoom {S T A} (get : S -> T) (set : T -> S -> S) (m : M T A) : M S A :=
  fun s => let (r, t) := m (get s) in (r, set t s).

(** [triple P m Q E]: started in a state satisfying [P], the computation
    [m] either returns [a] in a state satisfying [Q a] or raises [e] in a
    state satisfying [E e]. *)
Definition triple {S A} (P : S -> Prop) (m : M S A) (Q : A -> S -> Prop)
    (E : exn -> S -> Prop) : Prop :=
  forall s, P s ->
    match m s with
    | (inr a, s') => Q a s'
    | (inl e, s') => E e s'
    end.

(** [m] keeps the invariant [I], however it ends. *)
Definition preserves {S A} (I : S -> Prop) (m : M S A) : Prop :=
  triple I m (fun _ => I) (fun _ => I).

(** ** Strings: [str.strip], [str.split], [int] and [re.search] *)

Definition code (c : ascii) : nat := nat_of_ascii c.

(** [\d]: the decimal digits. *)
Definition is_digit (c : ascii) : bool :=
  (48 <=? code c)%nat && (code c <=? 57)%nat.

(** [\s] and [str.isspace]: TAB..CR, FS..US, SPACE, NEL and NBSP. *)
Definition is_space (c : ascii) : bool :=
  let n := code c in
  ((9 <=? n) && (n <=? 13) || (28 <=? n) && (n <=? 32) || (n =? 133) || (n =? 160))%nat.

(** [\S] *)
Definition is_non_space (c : ascii) : bool := negb (is_space c).

(** [.] without [re.DOTALL]: anything but a line feed. *)
Definition is_dot (c : ascii) : bool := negb (code c =? 10)%nat.

(** [s.startswith(p)], giving what follows the prefix. *)
Fixpoint strip_prefix (p s : string) : option string :=
  match p with
  | EmptyString => Some s
  | String a p' =>
      match s with
      | String b s' => if Ascii.eqb a b then strip_prefix p' s' else None
      | EmptyString => None
      end
  end.

(** Length of the longest prefix of [s] made of characters of the class. *)
Fixpoint run_length (cls : ascii -> bool) (s : string) : nat :=
  match s with
  | String c t => if cls c then S (run_length cls t) else O
  | EmptyString => O
  end.

(** [s[:k]] and [s[k:]] *)
Fixpoint take (k : nat) (s : string) : string :=
  match k, s with
  | S k', String c t => String c (take k' t)
  | _, _ => EmptyString
  end.

Fixpoint drop (k : nat) (s : string) : string :=
  match k, s with
  | S k', String _ t => drop k' t
  | _, _ => s
  end.

(** A greedy [(cls+)] followed by the literal [post]: the longest run is
    tried first, then shorter ones, down to one character. *)
Fixpoint backtrack (post s : string) (k : nat) : option string :=
  match k with
  | O => None
  | S k' =>
      match strip_prefix post (drop k s) with
      | Some _ => Some (take k s)
      | None => backtrack post s k'
      end
  end.

(** A match of the pattern [pre(cls+)post] starting at the head of [s];
    the result is group 1. *)
Definition match_here (pre : string) (cls : ascii -> bool) (post s : string)
    : option string :=
  match strip_prefix pre s with
  | Some r => backtrack post r (run_length cls r)
  | None => None
  end.

(** [re.search] for a pattern [pre(cls+)post]: the leftmost match. *)
Fixpoint re_search (pre : string) (cls : ascii -> bool) (post s : string)
    : option string :=
  match match_here pre cls post s with
  | Some g => Some g
  | None =>
      match s with
      | String _ t => re_search pre cls post t
      | EmptyString => None
      end
  end.

(** What [re.search] on [pre(cls+)post] is to return, stated on the text:
    [s] reads [a ++ pre ++ g ++ post ++ b] with [g] a non-empty run of the
    class, no match starts before [a], and no longer group matches there. *)
Fixpoint all_chars (cls : ascii -> bool) (g : string) : bool :=
  match g with
  | EmptyString => true
  | String c t => cls c && all_chars cls t
  end.

Definition matches_at (pre : string) (cls : ascii -> bool) (post : string)
    (s a g b : string) : Prop :=
  s = (a ++ pre ++ g ++ post ++ b)%string /\ g <> EmptyString /\ all_chars cls g = true.

Definition first_match (pre : string) (cls : ascii -> bool) (post : string)
    (s a g b : string) : Prop :=
  matches_at pre cls post s a g b /\
  forall a' g' b', matches_at pre cls post s a' g' b' ->
    (String.length a < String.length a')%nat \/
    (String.length a = String.length a' /\ String.length g' <= String.length g)%nat.

(** [int(s)] for a string of decimal digits. *)
Definition digit_value (c : ascii) : Z := Z.of_nat (code c) - 48.

Fixpoint int_digits (acc : Z) (s : string) : Z :=
  match s with
  | EmptyString => acc
  | String c t => int_digits (10 * acc + digit_value c) t
  end.

Definition py_int (s : string) : Z := int_digits 0 s.

(** [s.lstrip()], [s.rstrip()] and [s.strip()] *)
Fixpoint lstrip (s : string) : string :=
  match s with
  | String c t => if is_space c then lstrip t else s
  | EmptyString => EmptyString
  end.

Fixpoint rstrip (s : string) : string :=
  match s with
  | String c t =>
      match rstrip t with
      | EmptyString => if is_space c then EmptyString else String c EmptyString
      | t' => String c t'
      end
  | EmptyString => EmptyString
  end.

Definition strip (s : string) : string := rstrip (lstrip s).

(** [s.split("\n")]: never empty, [""] gives [[""]]. *)
Fixpoint split_lines (s : string) : list string :=
  match s with
  | EmptyString => [EmptyString]
  | String c t =>
      if (code c =? 10)%nat then EmptyString :: split_lines t
      else
        match split_lines t with
        | l :: ls => String c l :: ls
        | [] => [String c EmptyString]
        end
  end.

(** ** The outside world *)

(** The keyword arguments handed to [netmiko.ConnectHandler]; the key
    ["secret"] is present only when the device has a non-empty secret. *)
Record device_params : Type := {
  dp_device_type : string;
  dp_host : string;
  dp_port : Z;
  dp_username : option string;
  dp_password : option string;
  dp_timeout : Z;
  dp_session_timeout : Z;
  dp_secret : option string
}.

(** Template variables and extracted device facts: mappings from names to
    text, in insertion order. *)
Definition mapping : Type := list (string * string).

Record World (Conn : Type) : Type := {
  (* os.getenv *)
  os_getenv : string -> option string;
  (* netmiko: the constructor and the methods of a connection *)
  ConnectHandler : device_params -> exn + Conn;
  conn_check_enable_mode : Conn -> (exn + bool) * Conn;
  conn_enable : Conn -> (exn + unit) * Conn;
  conn_disconnect : Conn -> (exn + unit) * Conn;
  conn_send_command : string -> option string -> Z -> Conn -> (exn + string) * Conn;
  conn_send_config_set : list string -> bool -> Z -> Conn -> (exn + string) * Conn;
  conn_save_config : Conn -> (exn + string) * Conn;
  conn_is_alive : Conn -> (exn + bool) * Conn;
  (* jinja2: rendering the template of a given name with variables *)
  jinja_render : string -> mapping -> exn + string;
  (* concurrent.futures: the order in which as_completed yields n
     futures submitted in the order 0, 1, ..., n-1 *)
  completion_order : nat -> list nat;
  (* pathlib: mkdir(parents=True, exist_ok=True), str(Path(p)) and
     str(Path(p) / name) *)
  path_mkdir : string -> exn + unit;
  path_str : string -> string;
  path_join : string -> string -> string;
  (* time.strftime(format), read while the backup of a host is written *)
  time_strftime : string -> string -> string;
  (* open(path, "w") followed by write(text) *)
  file_write : string -> string -> exn + unit
}.

(** ** netauto.secrets_manager *)

Record credentials : Type := {
  cred_username : string;
  cred_password : string;
  cred_secret : option string      (* the key is absent when [None] *)
}.

Section Netauto.
Variable Conn : Type.
Variable W : World Conn.

(** [SecretsManager.get_device_credentials] *)
Definition get_device_credentials : exn + credentials :=
  let username := os_getenv W "DEVICE_USERNAME" in
  let password := os_getenv W "DEVICE_PASSWORD" in
  let enable_secret := os_getenv W "DEVICE_ENABLE_SECRET" in
  if negb (truthy username) || negb (truthy password) then
    inl (ValueError ("Missing required credentials. " ++
      "Please set DEVICE_USERNAME and DEVICE_PASSWORD environment variables."))
  else
    inr {| cred_username := get_default username "";
           cred_password := get_default password "";
           cred_secret := if truthy enable_secret then enable_secret else None |}.

(** [SecretsManager.validate_credentials] *)
Definition validate_credentials : bool :=
  match get_device_credentials with
  | inr _ => true
  | inl _ => false
  end.

(** ** netauto.connect *)

(** The calls made on a device session and on its collaborators, in the
    order in which they are made (what a mock of the session records). *)
Inductive event : Type :=
| EvGetCredentials
| EvConnect
| EvDisconnect
| EvSendCommand (command : string)
| EvSendConfigSet (config_commands : list string)
| EvSaveConfig
| EvIsAlive
| EvRenderTemplate (template_name : string) (variables : mapping).

(** The attributes of a [NetworkDevice] that are set once by [__init__]. *)
Record NetworkDevice : Type := {
  host : string;
  device_type : string;
  port : Z;
  timeout : Z;
  session_timeout : Z;
  username : option string;
  password : option string;
  secret : option string
}.

(** The mutable part of a session: the attribute [self.connection], and
    the record of the calls made so far. *)
Record session : Type := {
  connection : option Conn;
  calls : list event
}.

Definition new_session : session := {| connection := None; calls := [] |}.

Definition set_connection (c : option Conn) (s : session) : session :=
  {| connection := c; calls := calls s |}.

Definition logged (s : session) (e : event) : session :=
  {| connection := connection s; calls := calls s ++ [e] |}.

Definition record_call (e : event) : M session unit :=
  modify (fun s => logged s e).

(** Every call recorded so far satisfies [ok]. *)
Definition all_calls (ok : event -> Prop) (s : session) : Prop :=
  Forall ok (calls s).

(** A method call on the Netmiko connection [conn], to which
    [self.connection] still refers afterwards. *)
Definition on_connection {A} (f : Conn -> (exn + A) * Conn) (conn : Conn) : M session A :=
  fun s => let (r, conn') := f conn in (r, set_connection (Some conn') s).

(** [NetworkDevice.__init__]: the credentials come from the environment
    when the caller gives no user name or no password. *)
Definition NetworkDevice_init (host_ : string) (device_type_ : string) (port_ : Z)
    (username_ password_ secret_ : option string) : M session NetworkDevice :=
  modify (set_connection None) ;;;
  if negb (truthy username_) || negb (truthy password_) then
    record_call EvGetCredentials ;;;
    match get_device_credentials with
    | inl e => raise e
    | inr secrets =>
        ret {| host := host_; device_type := device_type_; port := port_;
               timeout := 30; session_timeout := 60;
               username := py_or username_ (Some (cred_username secrets));
               password := py_or password_ (Some (cred_password secrets));
               secret := py_or secret_ (cred_secret secrets) |}
    end
  else
    ret {| host := host_; device_type := device_type_; port := port_;
           timeout := 30; session_timeout := 60;
           username := username_; password := password_; secret := secret_ |}.

Definition connect_params (self : NetworkDevice) : device_params :=
  {| dp_device_type := device_type self;
     dp_host := host self;
     dp_port := port self;
     dp_username := username self;
     dp_password := password self;
     dp_timeout := timeout self;
     dp_session_timeout := session_timeout self;
     dp_secret := if truthy (secret self) then secret self else None |}.

(** The four [except] clauses of [connect], tried in order. *)
Definition connect_error (self : NetworkDevice) (e : exn) : exn :=
  match e with
  | NetmikoTimeoutException _ =>
      DeviceConnectionError ("Connection timeout to " ++ host self ++ ": " ++ str_exn e)
  | NetmikoAuthenticationException _ =>
      DeviceConnectionError ("Authentication failed for " ++ host self ++ ": " ++ str_exn e)
  | SSHException _ =>
      DeviceConnectionError ("SSH error connecting to " ++ host self ++ ": " ++ str_exn e)
  | _ =>
      DeviceConnectionError ("Unexpected error connecting to " ++ host self ++ ": " ++ str_exn e)
  end.

(** [NetworkDevice.connect] *)
Definition connect (self : NetworkDevice) : M session bool :=
  record_call EvConnect ;;;
  try_except
    (match ConnectHandler W (connect_params self) with
     | inl e => raise e
     | inr conn =>
         modify (set_connection (Some conn)) ;;;
         (if truthy (secret self) then
            enabled <- on_connection (conn_check_enable_mode W) conn ;;
            if negb enabled then
              c <- gets connection ;;
              match c with
              | Some conn' => on_connection (conn_enable W) conn'
              | None => ret tt
              end
            else ret tt
          else ret tt) ;;;
         ret true
     end)
    (fun e => raise (connect_error self e)).

(** [NetworkDevice.disconnect] *)
Definition disconnect (self : NetworkDevice) : M session unit :=
  record_call EvDisconnect ;;;
  c <- gets connection ;;
  match c with
  | Some conn =>
      try_finally
        (try_except (on_connection (conn_disconnect W) conn) (fun _ => ret tt))
        (set_connection None)
  | None => ret tt
  end.

(** [NetworkDevice.send_command] *)
Definition send_command (self : NetworkDevice) (command : string)
    (expect_string : option string) (delay_factor : Z) : M session string :=
  record_call (EvSendCommand command) ;;;
  c <- gets connection ;;
  match c with
  | None => raise (DeviceConnectionError ("Not connected to " ++ host self))
  | Some conn =>
      try_except
        (on_connection (conn_send_command W command expect_string delay_factor) conn)
        (fun e => raise (DeviceConnectionError
           ("Error executing command on " ++ host self ++ ": " ++ str_exn e)))
  end.

(** [NetworkDevice.send_config_set] *)
Definition send_config_set (self : NetworkDevice) (config_commands : list string)
    (exit_config_mode : bool) (delay_factor : Z) : M session string :=
  record_call (EvSendConfigSet config_commands) ;;;
  c <- gets connection ;;
  match c with
  | None => raise (DeviceConnectionError ("Not connected to " ++ host self))
  | Some conn =>
      try_except
        (on_connection (conn_send_config_set W config_commands exit_config_mode delay_factor) conn)
        (fun e => raise (DeviceConnectionError
           ("Error applying configuration on " ++ host self ++ ": " ++ str_exn e)))
  end.

(** [NetworkDevice.save_config]: no [try] around the call. *)
Definition save_config (self : NetworkDevice) : M session string :=
  record_call EvSaveConfig ;;;
  c <- gets connection ;;
  match c with
  | None => raise (DeviceConnectionError ("Not connected to " ++ host self))
  | Some conn => on_connection (conn_save_config W) conn
  end.

(** [NetworkDevice.is_alive] *)
Definition is_alive (self : NetworkDevice) : M session bool :=
  record_call EvIsAlive ;;;
  c <- gets connection ;;
  match c with
  | None => ret false
  | Some conn => on_connection (conn_is_alive W) conn
  end.

(** ** netauto.validators *)

(** [except DeviceConnectionError as e: raise ValidationError(str(e))] *)
Definition connection_error_as_validation {A} (e : exn) : M session A :=
  match e with
  | DeviceConnectionError _ => raise (ValidationError (str_exn e))
  | _ => raise e
  end.

(** [ConfigValidator.verify_connectivity]: the [ValidationError] raised in
    the [try] block is itself caught by [except Exception] and wrapped. *)
Definition verify_connectivity (device : NetworkDevice) : M session bool :=
  try_except
    (alive <- is_alive device ;;
     if negb alive then
       raise (ValidationError ("Device " ++ host device ++ " is not reachable"))
     else ret true)
    (fun e => raise (ValidationError
       ("Connectivity check failed for " ++ host device ++ ": " ++ str_exn e))).

(** The pattern [Success rate is (\d+) percent], group 1 as an [int]. *)
Definition parse_success_rate (output : string) : option Z :=
  match re_search "Success rate is " is_digit " percent" output with
  | Some g => Some (py_int g)
  | None => None
  end.

(** [ConfigValidator.verify_ip_connectivity] *)
Definition verify_ip_connectivity (device : NetworkDevice) (target_ip : string)
    (count : Z) : M session bool :=
  try_except
    (output <- send_command device
       ("ping " ++ target_ip ++ " repeat " ++ str_int count) None 2 ;;
     match parse_success_rate output with
     | Some success_rate =>
         if (80 <=? success_rate)%Z then ret true
         else raise (ValidationError
           ("Ping to " ++ target_ip ++ " failed (" ++ str_int success_rate ++ "%) " ++
            "from " ++ host device))
     | None =>
         raise (ValidationError
           ("Could not parse ping results for " ++ target_ip ++ " " ++
            "from " ++ host device))
     end)
    connection_error_as_validation.

(** [ConfigValidator.verify_config_contains] *)
Fixpoint contains (snippet s : string) : bool :=
  match strip_prefix snippet s with
  | Some _ => true
  | None =>
      match s with
      | String _ t => contains snippet t
      | EmptyString => false
      end
  end.

Definition verify_config_contains (device : NetworkDevice) (config_snippet : string)
    : M session bool :=
  try_except
    (output <- send_command device "show running-config" None 1 ;;
     if contains config_snippet output then ret true
     else raise (ValidationError
       ("Config snippet not found in running config on " ++ host device)))
    connection_error_as_validation.

(** Group 1 of the first match, or ["Unknown"]. *)
Definition group_or_unknown (m : option string) : string :=
  match m with
  | Some g => g
  | None => "Unknown"
  end.

(** The body of the [try] block of [get_device_info]. *)
Definition get_device_info_body (device : NetworkDevice) : M session mapping :=
  version_output <- send_command device "show version" None 1 ;;
  hostname_output <- send_command device "show running-config | include hostname" None 1 ;;
  let hostname := group_or_unknown (re_search "hostname " is_non_space "" hostname_output) in
  let version := group_or_unknown (re_search "Version " is_non_space "" version_output) in
  let uptime := group_or_unknown (re_search "uptime is " is_dot "" version_output) in
  ret [("hostname", hostname);
       ("version", version);
       ("uptime", uptime);
       ("device_type", device_type device);
       ("host", host device)].

(** [ConfigValidator.get_device_info]: any exception gives the empty
    dictionary. *)
Definition get_device_info (device : NetworkDevice) : M session mapping :=
  try_except (get_device_info_body device) (fun _ => ret []).

(** [d.get(k)] on a mapping. *)
Fixpoint lookup (k : string) (d : mapping) : option string :=
  match d with
  | [] => None
  | (k', v) :: d' => if String.eqb k k' then Some v else lookup k d'
  end.

(** ** netauto.tasks *)

(** A device dictionary of the inventory; every key may be absent. *)
Record DeviceInfo : Type := {
  di_host : option string;
  di_device_type : option string;
  di_port : option Z;
  di_username : option string;
  di_password : option string;
  di_secret : option string
}.

(** The result dictionary of [configure_device].  [validation] is [None]
    for the empty dictionary and otherwise holds the entries
    ["connectivity"] and ["device_info"]. *)
Record OperationResult : Type := {
  r_host : string;
  success : bool;
  message : string;
  output : string;
  validation : option (bool * mapping)
}.

(** The local variables of [configure_device] that are mutated: the result
    dictionary and the device session. *)
Record frame : Type := {
  result : OperationResult;
  sess : session
}.

Definition on_session {A} (m : M session A) : M frame A :=
  zoom sess (fun t f => {| result := result f; sess := t |}) m.

Definition update_result (g : OperationResult -> OperationResult) : M frame unit :=
  modify (fun f => {| result := g (result f); sess := sess f |}).

Definition set_success (b : bool) (r : OperationResult) : OperationResult :=
  {| r_host := r_host r; success := b; message := message r;
     output := output r; validation := validation r |}.

Definition set_message (m : string) (r : OperationResult) : OperationResult :=
  {| r_host := r_host r; success := success r; message := m;
     output := output r; validation := validation r |}.

Definition set_output (o : string) (r : OperationResult) : OperationResult :=
  {| r_host := r_host r; success := success r; message := message r;
     output := o; validation := validation r |}.

Definition set_validation (v : option (bool * mapping)) (r : OperationResult)
    : OperationResult :=
  {| r_host := r_host r; success := success r; message := message r;
     output := output r; validation := v |}.

(** [TemplateManager.render_template]: both [except] clauses re-raise. *)
Definition render_template (template_name : string) (variables : mapping)
    : M session string :=
  record_call (EvRenderTemplate template_name variables) ;;;
  match jinja_render W template_name variables with
  | inl e => raise e
  | inr rendered => ret rendered
  end.

Record ConfigurationTask : Type := {
  devices : list DeviceInfo;
  dry_run : bool
}.

(** [device_info["host"]] *)
Definition require_host {S} (device_info : DeviceInfo) : M S string :=
  match di_host device_info with
  | Some h => ret h
  | None => raise (KeyError "host")
  end.

(** The [try] block of [configure_device]. *)
Definition configure_device_body (self : ConfigurationTask) (device_info : DeviceInfo)
    (config_commands : option (list string)) (template_name : option string)
    (template_vars : option mapping) (save_config_ validate_after : bool)
    : M frame unit :=
  (* Create device connection *)
  h <- require_host device_info ;;
  device <- on_session (NetworkDevice_init h
              (get_default (di_device_type device_info) "cisco_ios")
              (get_default (di_port device_info) 22%Z)
              (di_username device_info) (di_password device_info)
              (di_secret device_info)) ;;
  (* Connect to device *)
  on_session (connect device) ;;;
  (* Prepare configuration *)
  config_commands <-
    (if truthy template_name && truthy_list template_vars then
       config_text <- on_session (render_template (get_default template_name "")
                                    (get_default template_vars [])) ;;
       ret (Some (split_lines (strip config_text)))
     else ret config_commands) ;;
  if negb (truthy_list config_commands) then
    raise (ValueError "No configuration commands or template provided")
  else
    let commands := get_default config_commands [] in
    (* Apply configuration *)
    (if dry_run self then
       update_result (set_output "DRY RUN - No changes applied")
     else
       out <- on_session (send_config_set device commands true 1) ;;
       update_result (set_output out) ;;;
       (* Save configuration *)
       if save_config_ then
         save_output <- on_session (save_config device) ;;
         update_result (fun r => set_output (output r ++ String "010" save_output) r)
       else ret tt) ;;;
    (* Validation *)
    (if validate_after && negb (dry_run self) then
       connectivity <- on_session (verify_connectivity device) ;;
       info <- on_session (get_device_info device) ;;
       update_result (set_validation (Some (connectivity, info)))
     else ret tt) ;;;
    (* Disconnect *)
    on_session (disconnect device) ;;;
    update_result (set_success true) ;;;
    update_result (set_message "Configuration applied successfully").

(** The prefix chosen by the three [except] clauses of [configure_device]. *)
Definition error_prefix (e : exn) : string :=
  match e with
  | DeviceConnectionError _ => "Connection error: "
  | ValidationError _ => "Validation error: "
  | _ => "Error: "
  end.

Definition initial_frame (device_info : DeviceInfo) : frame :=
  {| result := {| r_host := get_default (di_host device_info) "unknown";
                  success := false;
                  message := "";
                  output := "";
                  validation := None |};
     sess := new_session |}.

(** [ConfigurationTask.configure_device], with the final state of its
    local variables. *)
Definition configure_device_frame (self : ConfigurationTask) (device_info : DeviceInfo)
    (config_commands : option (list string)) (template_name : option string)
    (template_vars : option mapping) (save_config_ validate_after : bool) : frame :=
  snd (try_except
         (configure_device_body self device_info config_commands template_name
            template_vars save_config_ validate_after)
         (fun e => update_result (set_message (error_prefix e ++ str_exn e)))
         (initial_frame device_info)).

Definition configure_device (self : ConfigurationTask) (device_info : DeviceInfo)
    (config_commands : option (list string)) (template_name : option string)
    (template_vars : option mapping) (save_config_ validate_after : bool)
    : OperationResult :=
  result (configure_device_frame self device_info config_commands template_name
            template_vars save_config_ validate_after).

(** The summary dictionary of a batch ([elapsed_time], a wall-clock
    float, is left out). *)
Record Summary (R : Type) : Type := {
  total_devices : Z;
  successful : Z;
  failed : Z;
  results : list R
}.

(** [enumerate(l)] *)
Fixpoint enumerate_from {A} (i : nat) (l : list A) : list (nat * A) :=
  match l with
  | [] => []
  | x :: l' => (i, x) :: enumerate_from (S i) l'
  end.

Definition enumerate {A} (l : list A) : list (nat * A) := enumerate_from 0 l.

(** [len(l)] *)
Definition len {A} (l : list A) : Z := Z.of_nat (length l).

(** [sum(1 for r in results if r["success"])] *)
Definition count_success {R} (ok : R -> bool) (rs : list R) : Z :=
  fold_left (fun acc r => if ok r then (acc + 1)%Z else acc) rs 0%Z.

(** [as_completed(futures)]: the futures in completion order. *)
Definition as_completed {A} (futures : list A) : list A :=
  flat_map (fun i => match nth_error futures i with
                     | Some f => [f]
                     | None => []
                     end)
           (completion_order W (length futures)).

(** The per-device variables chosen in both loops of
    [configure_multiple_devices]. *)
Definition vars_for (template_vars_list : option (list mapping)) (idx : nat)
    : option mapping :=
  if truthy_list template_vars_list then
    match nth_error (get_default template_vars_list []) idx with
    | Some v => Some v
    | None => None
    end
  else None.

(** A finished future: what [future.result()] returns or raises. *)
Definition Future (R : Type) : Type := (exn + R)%type.

(** [executor.submit(f, ...)] for a function that returns [r]. *)
Definition submit {R} (r : R) : Future R := inr r.

(** The body of the [as_completed] loop: a result is appended for every
    future, also when [future.result()] raises (the keys ["output"] and
    ["validation"], absent from that dictionary, read as empty). *)
Definition collect (fh : Future OperationResult * string) : OperationResult :=
  match fh with
  | (inr r, _) => r
  | (inl e, h) =>
      {| r_host := h; success := false;
         message := "Task exception: " ++ str_exn e;
         output := ""; validation := None |}
  end.

(** [ConfigurationTask.configure_multiple_devices] *)
Definition configure_multiple_devices (self : ConfigurationTask)
    (config_commands : option (list string)) (template_name : option string)
    (template_vars_list : option (list mapping)) (save_config_ validate_after : bool)
    (parallel : bool) (max_workers : Z) : Summary OperationResult :=
  let results_ :=
    if parallel then
      let futures :=
        map (fun '(idx, device_info) =>
               (submit (configure_device self device_info config_commands
                          template_name (vars_for template_vars_list idx)
                          save_config_ validate_after),
                get_default (di_host device_info) "unknown"))
            (enumerate (devices self)) in
      map collect (as_completed futures)
    else
      map (fun '(idx, device_info) =>
             configure_device self device_info config_commands template_name
               (vars_for template_vars_list idx) save_config_ validate_after)
          (enumerate (devices self)) in
  (* Aggregate results *)
  let success_count := count_success success results_ in
  let failure_count := (len results_ - success_count)%Z in
  {| total_devices := len (devices self);
     successful := success_count;
     failed := failure_count;
     results := results_ |}.

(** The result dictionary of a backup. *)
Record BackupResult : Type := {
  b_host : string;
  b_success : bool;
  b_message : string;
  b_file : string
}.

Record backup_frame : Type := {
  b_result : BackupResult;
  b_sess : session
}.

Definition on_backup_session {A} (m : M session A) : M backup_frame A :=
  zoom b_sess (fun t f => {| b_result := b_result f; b_sess := t |}) m.

(** The [try] block of [backup_single_device]; the port is left to its
    default. *)
Definition backup_single_device_body (backup_path : string) (device_info : DeviceInfo)
    : M backup_frame unit :=
  let host_ := get_default (di_host device_info) "unknown" in
  h <- require_host device_info ;;
  device <- on_backup_session (NetworkDevice_init h
              (get_default (di_device_type device_info) "cisco_ios")
              22%Z
              (di_username device_info) (di_password device_info)
              (di_secret device_info)) ;;
  on_backup_session (connect device) ;;;
  config <- on_backup_session (send_command device "show running-config" None 1) ;;
  on_backup_session (disconnect device) ;;;
  (* Save to file *)
  let timestamp := time_strftime W "%Y%m%d_%H%M%S" host_ in
  let filename := (host_ ++ "_" ++ timestamp ++ ".cfg")%string in
  let file_path := path_join W backup_path filename in
  match file_write W file_path config with
  | inl e => raise e
  | inr _ =>
      modify (fun f =>
        {| b_result := {| b_host := b_host (b_result f);
                          b_success := true;
                          b_message := "Backup completed successfully";
                          b_file := file_path |};
           b_sess := b_sess f |})
  end.

Definition backup_single_device_frame (backup_path : string) (device_info : DeviceInfo)
    : backup_frame :=
  snd (try_except
         (backup_single_device_body backup_path device_info)
         (fun e => modify (fun f =>
            {| b_result := {| b_host := b_host (b_result f);
                              b_success := b_success (b_result f);
                              b_message := "Backup failed: " ++ str_exn e;
                              b_file := b_file (b_result f) |};
               b_sess := b_sess f |}))
         {| b_result := {| b_host := get_default (di_host device_info) "unknown";
                           b_success := false;
                           b_message := "";
                           b_file := "" |};
            b_sess := new_session |}).

(** The local function [backup_single_device] of [backup_configs]. *)
Definition backup_single_device (backup_path : string) (device_info : DeviceInfo)
    : BackupResult :=
  b_result (backup_single_device_frame backup_path device_info).



End Netauto.

(** ** The rest of netauto.connect and netauto.validators *)

(** [str.lower] on code points below 256: the letters [A]..[Z] and the
    accented capitals U+00C0..U+00DE (but the multiplication sign) move
    by 32. *)
Definition lower_char (c : ascii) : ascii :=
  let n := code c in
  if ((65 <=? n) && (n <=? 90) || (192 <=? n) && (n <=? 214) ||
      (216 <=? n) && (n <=? 222))%nat
  then ascii_of_nat (n + 32)
  else c.

Fixpoint py_lower (s : string) : string :=
  match s with
  | EmptyString => EmptyString
  | String c t => String (lower_char c) (py_lower t)
  end.

(** [d[k] = v] on a dictionary kept in insertion order: an existing key
    keeps its place. *)
Fixpoint dict_set {V : Type} (k : string) (v : V) (d : list (string * V))
    : list (string * V) :=
  match d with
  | [] => [(k, v)]
  | (k', v') :: d' =>
      if String.eqb k k' then (k, v) :: d' else (k', v') :: dict_set k v d'
  end.

(** A validation dictionary of [run_validation_suite]; every key may be
    absent. *)
Record Validation : Type := {
  v_type : option string;
  v_interface : option string;
  v_status : option string;
  v_protocol : option string;
  v_target : option string;
  v_count : option Z;
  v_snippet : option string
}.

(** [str(x)] of an optional string, as an f-string prints it. *)
Definition str_optional (o : option string) : string := get_default o "None".

(** [val_type == name] *)
Definition type_is (val_type : option string) (name : string) : bool :=
  match val_type with
  | Some t => String.eqb t name
  | None => false
  end.

(** The key of the check at position [idx]. *)
Definition validation_key (idx : nat) (val_type : option string) : string :=
  "validation_" ++ str_int (Z.of_nat idx) ++ "_" ++ str_optional val_type.

(** [command_map.get(name)] of [verify_routing_protocol]. *)
Definition command_map (name : string) : option string :=
  if String.eqb name "ospf" then Some "show ip ospf"
  else if String.eqb name "eigrp" then Some "show ip eigrp neighbors"
  else if String.eqb name "bgp" then Some "show ip bgp summary"
  else None.

Section NetautoChecks.
Variable Conn : Type.
Variable W : World Conn.

(** [SecretsManager.get_credential] *)
Definition get_credential (key : string) (default : option string) : option string :=
  match os_getenv W key with
  | Some v => Some v
  | None => default
  end.

(** [with device: body], through [__enter__] and [__exit__]: an exception
    of [connect] leaves before the block; otherwise [disconnect] runs
    however the block ends and, as [__exit__] returns [None], an exception of
    the block goes on to the caller. *)
Definition with_device {A} (self : NetworkDevice) (body : M (session Conn) A)
    : M (session Conn) A :=
  connect W self ;;;
  (fun s =>
     let (r, s1) := body s in
     match disconnect W self s1 with
     | (inl e, s2) => (inl e, s2)
     | (inr _, s2) => (r, s2)
     end).

(** [ConfigValidator.verify_interface_status] *)
Definition verify_interface_status (device : NetworkDevice)
    (interface expected_status : string) : M (session Conn) bool :=
  try_except
    (out <- send_command W device ("show interface " ++ interface) None 1 ;;
     if String.eqb (py_lower expected_status) "up" then
       if contains "up" (py_lower out) &&
          contains "line protocol is up" (py_lower out)
       then ret true
       else raise (ValidationError
              ("Interface " ++ interface ++ " is not up on " ++ host device))
     else
       if contains "down" (py_lower out) then ret true
       else raise (ValidationError
              ("Interface " ++ interface ++ " is not down on " ++ host device)))
    (@connection_error_as_validation Conn bool).

(** [ConfigValidator.verify_routing_protocol] *)
Definition verify_routing_protocol (device : NetworkDevice) (protocol : string)
    : M (session Conn) bool :=
  try_except
    (match command_map (py_lower protocol) with
     | None => raise (ValidationError ("Unknown protocol: " ++ protocol))
     | Some command =>
         out <- send_command W device command None 1 ;;
         if contains "not running" (py_lower out) || contains "% " out then
           raise (ValidationError
             ("Protocol " ++ protocol ++ " is not running on " ++ host device))
         else ret true
     end)
    (@connection_error_as_validation Conn bool).

(** [validation[key]] *)
Definition require_key {A} (o : option A) (key : string) : M (session Conn) A :=
  match o with
  | Some v => ret v
  | None => raise (KeyError key)
  end.

(** The [if]/[elif] chain of [run_validation_suite]. *)
Definition run_check (device : NetworkDevice) (validation : Validation)
    : M (session Conn) bool :=
  let val_type := v_type validation in
  if type_is val_type "connectivity" then
    verify_connectivity W device
  else if type_is val_type "interface" then
    interface <- require_key (v_interface validation) "interface" ;;
    verify_interface_status device interface (get_default (v_status validation) "up")
  else if type_is val_type "protocol" then
    protocol <- require_key (v_protocol validation) "protocol" ;;
    verify_routing_protocol device protocol
  else if type_is val_type "ping" then
    target <- require_key (v_target validation) "target" ;;
    verify_ip_connectivity W device target (get_default (v_count validation) 3%Z)
  else if type_is val_type "config" then
    snippet <- require_key (v_snippet validation) "snippet" ;;
    verify_config_contains W device snippet
  else ret false.

(** One turn of the loop: only [ValidationError] is caught. *)
Definition check_entry (device : NetworkDevice) (idx : nat) (validation : Validation)
    (results : list (string * bool)) : M (session Conn) (list (string * bool)) :=
  let key := validation_key idx (v_type validation) in
  try_except
    (r <- run_check device validation ;;
     ret (dict_set key r results))
    (fun e =>
       match e with
       | ValidationError _ => ret (dict_set key false results)
       | _ => raise e
       end).

Fixpoint run_checks (device : NetworkDevice) (idx : nat) (validations : list Validation)
    (results : list (string * bool)) : M (session Conn) (list (string * bool)) :=
  match validations with
  | [] => ret results
  | validation :: rest =>
      results' <- check_entry device idx validation results ;;
      run_checks device (S idx) rest results'
  end.

(** [ConfigValidator.run_validation_suite] *)
Definition run_validation_suite (device : NetworkDevice) (validations : list Validation)
    : M (session Conn) (list (string * bool)) :=
  run_checks device 0 validations [].

End NetautoChecks.

(** ** A laboratory world

    A world in the manner of the mocks of [tests/]: no credentials in the
    environment, every device accepts the connection and every call on it
    succeeds; futures complete in the reverse of the submission order. *)

Definition lab_world : World unit := {|
  os_getenv := fun _ => None;
  ConnectHandler := fun _ => inr tt;
  conn_check_enable_mode := fun c => (inr true, c);
  conn_enable := fun c => (inr tt, c);
  conn_disconnect := fun c => (inr tt, c);
  conn_send_command := fun _ _ _ c => (inr "Config output", c);
  conn_send_config_set := fun _ _ _ c => (inr "Config applied", c);
  conn_save_config := fun c => (inr "Config saved", c);
  conn_is_alive := fun c => (inr true, c);
  jinja_render := fun _ _ => inr "hostname TEST";
  completion_order := fun n => rev (seq 0 n);
  path_mkdir := fun _ => inr tt;
  path_str := fun p => p;
  path_join := fun p name => (p ++ "/" ++ name)%string;
  time_strftime := fun _ _ => "20240101_000000";
  file_write := fun _ _ => inr tt
|}.

(** The laboratory world in which every command prints [text]. *)
Definition echo_world (text : string) : World unit := {|
  os_getenv := os_getenv lab_world;
  ConnectHandler := ConnectHandler lab_world;
  conn_check_enable_mode := conn_check_enable_mode lab_world;
  conn_enable := conn_enable lab_world;
  conn_disconnect := conn_disconnect lab_world;
  conn_send_command := fun _ _ _ c => (inr text, c);
  conn_send_config_set := conn_send_config_set lab_world;
  conn_save_config := conn_save_config lab_world;
  conn_is_alive := conn_is_alive lab_world;
  jinja_render := jinja_render lab_world;
  completion_order := completion_order lab_world;
  path_mkdir := path_mkdir lab_world;
  path_str := path_str lab_world;
  path_join := path_join lab_world;
  time_strftime := time_strftime lab_world;
  file_write := file_write lab_world
|}.

(** The laboratory world in which the device rejects the configuration. *)
Definition refusing_world : World unit := {|
  os_getenv := os_getenv lab_world;
  ConnectHandler := ConnectHandler lab_world;
  conn_check_enable_mode := conn_check_enable_mode lab_world;
  conn_enable := conn_enable lab_world;
  conn_disconnect := conn_disconnect lab_world;
  conn_send_command := conn_send_command lab_world;
  conn_send_config_set :=
    fun _ _ _ c => (inl (OtherException "Invalid input detected"), c);
  conn_save_config := conn_save_config lab_world;
  conn_is_alive := conn_is_alive lab_world;
  jinja_render := jinja_render lab_world;
  completion_order := completion_order lab_world;
  path_mkdir := path_mkdir lab_world;
  path_str := path_str lab_world;
  path_join := path_join lab_world;
  time_strftime := time_strftime lab_world;
  file_write := file_write lab_world
|}.

(** A session on an open connection. *)
Definition open_session : session unit := {| connection := Some tt; calls := [] |}.

(** The first device of the fixture [mock_devices]. *)
Definition device1 : DeviceInfo := {|
  di_host := Some "192.168.1.1";
  di_device_type := Some "cisco_ios";
  di_port := None;
  di_username := Some "admin";
  di_password := Some "password123";
  di_secret := None
|}.

Definition device2 : DeviceInfo := {|
  di_host := Some "192.168.1.2";
  di_device_type := Some "cisco_ios";
  di_port := None;
  di_username := Some "admin";
  di_password := Some "password123";
  di_secret := None
|}.

(** A device that relies on the environment for its credentials. *)
Definition bare_device : DeviceInfo := {|
  di_host := Some "192.168.1.9";
  di_device_type := None;
  di_port := None;
  di_username := None;
  di_password := None;
  di_secret := None
|}.

Definition admin_device : NetworkDevice := {|
  host := "192.168.1.1";
  device_type := "cisco_ios";
  port := 22;
  timeout := 30;
  session_timeout := 60;
  username := Some "admin";
  password := Some "password123";
  secret := None
|}.

(** The task of the fixture [config_task], and the same in dry-run mode. *)
Definition config_task : ConfigurationTask :=
  {| devices := [device1; device2]; dry_run := false |}.

(** A batch in which the second device has no credentials. *)
Definition mixed_task : ConfigurationTask :=
  {| devices := [device1; bare_device]; dry_run := false |}.

Definition dry_task : ConfigurationTask :=
  {| devices := [device1]; dry_run := true |}.

(** The least that "the output lists the commands" asks for: every
    command occurs in the output. *)
Definition lists_commands (out : string) (commands : list string) : Prop :=
  Forall (fun c => contains c out = true) commands.

(** The state of a result before the last two assignments. *)
Definition pending (r : OperationResult) : Prop := success r = false.

(** The output before anything is written to it, and after a dry run. *)
Definition blank (r : OperationResult) : Prop := output r = EmptyString.

Definition marked (r : OperationResult) : Prop :=
  output r = "DRY RUN - No changes applied".

(** The result is that of the host [h]. *)
Definition hosted (h : string) (r : OperationResult) : Prop := r_host r = h.



Definition missing_credentials : string :=
  "Missing required credentials. " ++
  "Please set DEVICE_USERNAME and DEVICE_PASSWORD environment variables.".

(** The session of a frame has been released. *)
Definition released {Conn} (f : frame Conn) : Prop :=
  connection (sess f) = None /\ In EvDisconnect (calls (sess f)).

(** The events of applying and of saving a configuration. *)
Definition is_apply_or_save (e : event) : Prop :=
  match e with
  | EvSendConfigSet _ => True
  | EvSaveConfig => True
  | _ => False
  end.

Definition not_apply_or_save (e : event) : Prop := ~ is_apply_or_save e.

(** The laboratory world with credentials in the environment. *)
Definition office_env (key : string) : option string :=
  if String.eqb key "DEVICE_USERNAME" then Some "netops"
  else if String.eqb key "DEVICE_PASSWORD" then Some "s3cret"
  else if String.eqb key "DEVICE_ENABLE_SECRET" then Some "enable123"
  else None.

Definition office_world : World unit := {|
  os_getenv := office_env;
  ConnectHandler := ConnectHandler lab_world;
  conn_check_enable_mode := conn_check_enable_mode lab_world;
  conn_enable := conn_enable lab_world;
  conn_disconnect := conn_disconnect lab_world;
  conn_send_command := conn_send_command lab_world;
  conn_send_config_set := conn_send_config_set lab_world;
  conn_save_config := conn_save_config lab_world;
  conn_is_alive := conn_is_alive lab_world;
  jinja_render := jinja_render lab_world;
  completion_order := completion_order lab_world;
  path_mkdir := path_mkdir lab_world;
  path_str := path_str lab_world;
  path_join := path_join lab_world;
  time_strftime := time_strftime lab_world;
  file_write := file_write lab_world
|}.

(** The laboratory world in which the device is not in enable mode and
    refuses to enter it. *)
Definition locked_world : World unit := {|
  os_getenv := os_getenv lab_world;
  ConnectHandler := ConnectHandler lab_world;
  conn_check_enable_mode := fun c => (inr false, c);
  conn_enable := fun c => (inl (ValueError "Failed to enter enable mode."), c);
  conn_disconnect := conn_disconnect lab_world;
  conn_send_command := conn_send_command lab_world;
  conn_send_config_set := conn_send_config_set lab_world;
  conn_save_config := conn_save_config lab_world;
  conn_is_alive := conn_is_alive lab_world;
  jinja_render := jinja_render lab_world;
  completion_order := completion_order lab_world;
  path_mkdir := path_mkdir lab_world;
  path_str := path_str lab_world;
  path_join := path_join lab_world;
  time_strftime := time_strftime lab_world;
  file_write := file_write lab_world
|}.

(** A device with an enable secret. *)
Definition enable_device : NetworkDevice := {|
  host := "192.168.1.1";
  device_type := "cisco_ios";
  port := 22;
  timeout := 30;
  session_timeout := 60;
  username := Some "admin";
  password := Some "password123";
  secret := Some "enable123"
|}.

(** [p in s]: the text [p] occurs in [s]. *)
Definition occurs (p s : string) : Prop :=
  exists a b, s = (a ++ p ++ b)%string.



(** A check of a given type with every other key absent. *)
Definition check_of_type (t : option string) : Validation :=
  {| v_type := t; v_interface := None; v_status := None; v_protocol := None;
     v_target := None; v_count := None; v_snippet := None |}.



(** The calls that a backup may make. *)
Definition backup_call (e : event) : Prop :=
  match e with
  | EvGetCredentials => True
  | EvConnect => True
  | EvDisconnect => True
  | EvSendCommand command => command = "show running-config"
  | _ => False
  end.


(** The calls that the flags of a run of [configure_device] allow. *)
Definition permitted_call (self : ConfigurationTask) (template_name : option string)
    (template_vars : option mapping) (save_config_ validate_after : bool)
    (e : event) : Prop :=
  match e with
  | EvGetCredentials => True
  | EvConnect => True
  | EvDisconnect => True
  | EvRenderTemplate name variables =>
      truthy template_name = true /\ truthy_list template_vars = true /\
      template_name = Some name /\ template_vars = Some variables
  | EvSendConfigSet _ => dry_run self = false
  | EvSaveConfig => dry_run self = false /\ save_config_ = true
  | EvIsAlive => dry_run self = false /\ validate_after = true
  | EvSendCommand command =>
      dry_run self = false /\ validate_after = true /\
      (command = "show version" \/
       command = "show running-config | include hostname")
  end.

(** ["\n".join(lines)] *)
Fixpoint join_lines (lines : list string) : string :=
  match lines with
  | [] => EmptyString
  | [l] => l
  | l :: rest => l ++ String "010" (join_lines rest)
  end.

(** The stage of the life of a session to which a call belongs:
    credentials, connection, rendering, application, saving, validation
    (liveness, then commands), release. *)
Definition phase (e : event) : nat :=
  match e with
  | EvGetCredentials => 0
  | EvConnect => 1
  | EvRenderTemplate _ _ => 2
  | EvSendConfigSet _ => 3
  | EvSaveConfig => 4
  | EvIsAlive => 5
  | EvSendCommand _ => 6
  | EvDisconnect => 7
  end.

(** No call is followed by a call of an earlier stage. *)
Fixpoint in_order (l : list event) : Prop :=
  match l with
  | [] => True
  | e :: l' => Forall (fun x => (phase e <= phase x)%nat) l' /\ in_order l'
  end.

(** The calls are in order and none is of a stage after [k]. *)
Definition upto (k : nat) (l : list event) : Prop :=
  in_order l /\ Forall (fun e => (phase e <= k)%nat) l.

(** A property of the calls recorded in a session. *)
Definition on_calls {Conn} (P : list event -> Prop) (s : session Conn) : Prop :=
  P (calls s).

(** * Properties *)

Unset Implicit Arguments.

(** ** Sessions without a connection *)

Section NoConnection.
Variable Conn : Type.
Variable W : World Conn.
Variable self : NetworkDevice.

Lemma send_command_unconnected (s : session Conn) command expect delay :
  connection s = None ->
  send_command W self command expect delay s =
  (inl (DeviceConnectionError ("Not connected to " ++ host self)),
   logged s (EvSendCommand command)).
Proof.
  intros Hc. unfold send_command, bind, record_call, modify, gets, raise, logged.
  cbn. rewrite Hc. reflexivity.
Qed.

Lemma disconnect_resets (s : session Conn) :
  fst (disconnect W self s) = inr tt /\
  connection (snd (disconnect W self s)) = None.
Proof.
  unfold disconnect, bind, record_call, modify, gets. cbn.
  destruct (connection s) as [conn|] eqn:Hc.
  - unfold try_finally, try_except, on_connection, ret.
    destruct (conn_disconnect W conn) as [[e|[]] conn']; cbn; auto.
  - cbn. auto.
Qed.

Lemma disconnect_recorded (s : session Conn) :
  In EvDisconnect (calls (snd (disconnect W self s))).
Proof.
  unfold disconnect, bind, record_call, modify, gets, logged. cbn.
  destruct (connection s) as [conn|]; cbn.
  - unfold try_finally, try_except, on_connection, ret.
    destruct (conn_disconnect W conn) as [[e|[]] conn']; cbn;
      apply in_or_app; right; left; reflexivity.
  - apply in_or_app; right; left; reflexivity.
Qed.

(** C10. On a device without an active connection, [send_command],
    [send_config_set] and [save_config] raise [DeviceConnectionError]
    without calling the connection of the world (the outcome is the same
    in every world: the error and the session with the call recorded),
    [is_alive] returns [False], and [disconnect] returns without raising
    and leaves the session unconnected.  Whatever the session, [disconnect]
    never raises and leaves [connection] at [None], so that a second
    [disconnect] finds nothing to do. *)
Theorem unconnected_session_is_safe (s : session Conn) :
  connection s = None ->
  (forall command expect delay,
     send_command W self command expect delay s =
     (inl (DeviceConnectionError ("Not connected to " ++ host self)),
      logged s (EvSendCommand command))) /\
  (forall commands exit_mode delay,
     send_config_set W self commands exit_mode delay s =
     (inl (DeviceConnectionError ("Not connected to " ++ host self)),
      logged s (EvSendConfigSet commands))) /\
  save_config W self s =
    (inl (DeviceConnectionError ("Not connected to " ++ host self)),
     logged s EvSaveConfig) /\
  is_alive W self s = (inr false, logged s EvIsAlive) /\
  disconnect W self s = (inr tt, logged s EvDisconnect) /\
  (forall s0 : session Conn,
     fst (disconnect W self s0) = inr tt /\
     connection (snd (disconnect W self s0)) = None /\
     disconnect W self (snd (disconnect W self s0)) =
       (inr tt, logged (snd (disconnect W self s0)) EvDisconnect)).
Proof.
  intros Hc. repeat split.
  - intros. now apply send_command_unconnected.
  - intros. unfold send_config_set, bind, record_call, modify, gets, raise, logged.
    cbn. rewrite Hc. reflexivity.
  - unfold save_config, bind, record_call, modify, gets, raise, logged.
    cbn. rewrite Hc. reflexivity.
  - unfold is_alive, bind, record_call, modify, gets, ret, logged.
    cbn. rewrite Hc. reflexivity.
  - unfold disconnect, bind, record_call, modify, gets, ret, logged.
    cbn. rewrite Hc. reflexivity.
  - apply disconnect_resets.
  - apply disconnect_resets.
  - destruct (disconnect_resets s0) as [_ Hn].
    remember (snd (disconnect W self s0)) as s1 eqn:Hs1. clear Hs1.
    unfold disconnect, bind, record_call, modify, gets, ret, logged.
    cbn. rewrite Hn. reflexivity.
Qed.

End NoConnection.

Lemma unconnected_session_is_safe_witness :
  connection (new_session unit) = None /\
  is_alive lab_world admin_device (new_session unit) =
    (inr false, logged (new_session unit) EvIsAlive).
Proof.
  split; [reflexivity |].
  apply (unconnected_session_is_safe unit lab_world admin_device (new_session unit)).
  reflexivity.
Defined.

(** ** Strings and the pattern matcher *)

Lemma sapp_assoc (a b c : string) : ((a ++ b) ++ c = a ++ (b ++ c))%string.
Proof. induction a as [|x a IH]; cbn; [reflexivity | now rewrite IH]. Qed.

Lemma slen_app (a b : string) :
  String.length (a ++ b) = (String.length a + String.length b)%nat.
Proof. induction a as [|x a IH]; cbn; [reflexivity | now rewrite IH]. Qed.

Lemma sapp_inv_head (p a b : string) : (p ++ a = p ++ b)%string -> a = b.
Proof.
  induction p as [|x p IH]; cbn; intros H; [assumption |].
  injection H as H. auto.
Qed.

Lemma sapp_same_length (a a' x y : string) :
  (a ++ x = a' ++ y)%string -> String.length a = String.length a' ->
  a = a' /\ x = y.
Proof.
  revert a'. induction a as [|c a IH]; intros [|c' a']; cbn; intros H L;
    try discriminate.
  - auto.
  - injection H as Hc H. injection L as L.
    destruct (IH _ H L) as [-> ->]. subst. auto.
Qed.

Lemma strip_prefix_iff (p s r : string) :
  strip_prefix p s = Some r <-> s = (p ++ r)%string.
Proof.
  revert s. induction p as [|a p IH]; intros s; cbn.
  - split; [now intros [= ->] | now intros ->].
  - destruct s as [|b s].
    + split; discriminate.
    + destruct (Ascii.eqb a b) eqn:E.
      * apply Ascii.eqb_eq in E. subst b. rewrite IH.
        split; [now intros -> | now intros [= ->]].
      * apply Ascii.eqb_neq in E.
        split; [discriminate | intros [= <- _]; contradiction].
Qed.

Lemma strip_prefix_app (p r : string) : strip_prefix p (p ++ r) = Some r.
Proof. now apply strip_prefix_iff. Qed.

Lemma take_drop (k : nat) (s : string) : (take k s ++ drop k s)%string = s.
Proof.
  revert s. induction k as [|k IH]; intros [|c s]; cbn; try reflexivity.
  now rewrite IH.
Qed.

Lemma take_app_length (g r : string) : take (String.length g) (g ++ r) = g.
Proof.
  induction g as [|c g IH]; cbn.
  - destruct r; reflexivity.
  - now rewrite IH.
Qed.

Lemma drop_app_length (g r : string) : drop (String.length g) (g ++ r) = r.
Proof. induction g as [|c g IH]; cbn; [reflexivity | assumption]. Qed.

Lemma length_take (k : nat) (s : string) :
  (k <= String.length s)%nat -> String.length (take k s) = k.
Proof.
  revert s. induction k as [|k IH]; intros [|c s]; cbn; intros H;
    try reflexivity; try lia.
  rewrite IH; [reflexivity | lia].
Qed.

Lemma run_length_le (cls : ascii -> bool) (s : string) :
  (run_length cls s <= String.length s)%nat.
Proof.
  induction s as [|c s IH]; cbn; [lia |].
  destruct (cls c); lia.
Qed.

Lemma run_length_app (cls : ascii -> bool) (g r : string) :
  all_chars cls g = true -> (String.length g <= run_length cls (g ++ r))%nat.
Proof.
  induction g as [|c g IH]; cbn; intros H; [lia |].
  apply andb_true_iff in H as [Hc Hg]. rewrite Hc. specialize (IH Hg). lia.
Qed.

Lemma all_chars_take (cls : ascii -> bool) (k : nat) (s : string) :
  (k <= run_length cls s)%nat -> all_chars cls (take k s) = true.
Proof.
  revert s. induction k as [|k IH]; intros [|c s]; cbn; intros H;
    try reflexivity.
  destruct (cls c) eqn:Hc; [| lia].
  cbn. apply IH. lia.
Qed.

Lemma backtrack_some (post r : string) (n : nat) (g : string) :
  backtrack post r n = Some g ->
  exists k b, (1 <= k <= n)%nat /\ g = take k r /\ drop k r = (post ++ b)%string /\
    forall k', (k < k' <= n)%nat -> strip_prefix post (drop k' r) = None.
Proof.
  induction n as [|n IH]; cbn [backtrack]; [discriminate |].
  destruct (strip_prefix post (drop (S n) r)) as [b|] eqn:E.
  - intros [= Hg]. subst g. exists (S n), b.
    split; [lia |]. split; [reflexivity |].
    split; [now apply strip_prefix_iff |]. intros k' Hk. lia.
  - intros H. destruct (IH H) as (k & b & Hk & Hg & Hd & Hmax).
    exists k, b.
    split; [lia |]. split; [assumption |]. split; [assumption |].
    intros k' Hk'. destruct (Nat.eq_dec k' (S n)) as [->|Hne]; [assumption |].
    apply Hmax. lia.
Qed.

Lemma backtrack_none (post r : string) (n : nat) :
  backtrack post r n = None ->
  forall k, (1 <= k <= n)%nat -> strip_prefix post (drop k r) = None.
Proof.
  induction n as [|n IH]; cbn [backtrack]; intros H k Hk; [lia |].
  destruct (strip_prefix post (drop (S n) r)) as [b|] eqn:E; [discriminate |].
  destruct (Nat.eq_dec k (S n)) as [->|Hne]; [assumption |].
  apply IH; [assumption | lia].
Qed.

Section Matcher.
Variable pre : string.
Variable cls : ascii -> bool.
Variable post : string.

Lemma matches_at_head_inv (s g b : string) :
  matches_at pre cls post s "" g b ->
  exists r, strip_prefix pre s = Some r /\ r = (g ++ post ++ b)%string /\
    (1 <= String.length g <= run_length cls r)%nat /\
    strip_prefix post (drop (String.length g) r) = Some b.
Proof.
  intros (Hs & Hne & Hall). cbn in Hs.
  exists (g ++ post ++ b)%string. repeat split.
  - now apply strip_prefix_iff.
  - destruct g; [contradiction | cbn; lia].
  - now apply run_length_app.
  - rewrite drop_app_length. apply strip_prefix_app.
Qed.

Lemma match_here_some (s g : string) :
  match_here pre cls post s = Some g ->
  exists b, matches_at pre cls post s "" g b /\
    forall g' b', matches_at pre cls post s "" g' b' ->
      (String.length g' <= String.length g)%nat.
Proof.
  unfold match_here. destruct (strip_prefix pre s) as [r|] eqn:Hp; [| discriminate].
  intros H. apply backtrack_some in H as (k & b & Hk & Hg & Hd & Hmax).
  pose proof (run_length_le cls r) as Hle.
  assert (Hlen : String.length g = k) by (subst g; apply length_take; lia).
  exists b. split.
  - repeat split.
    + cbn. apply strip_prefix_iff in Hp. rewrite Hp. f_equal.
      rewrite <- Hd, Hg. symmetry. apply take_drop.
    + intros ->. cbn in Hlen. lia.
    + subst g. apply all_chars_take. lia.
  - intros g' b' Hm. apply matches_at_head_inv in Hm as (r' & Hp' & Hr' & Hk' & Hd').
    rewrite Hp in Hp'. injection Hp' as <-.
    destruct (Nat.le_gt_cases (String.length g') k) as [Hok|Hgt]; [lia |].
    rewrite (Hmax (String.length g')) in Hd' by lia. discriminate.
Qed.

Lemma match_here_none (s : string) :
  match_here pre cls post s = None ->
  forall g b, ~ matches_at pre cls post s "" g b.
Proof.
  unfold match_here. intros H g b Hm.
  apply matches_at_head_inv in Hm as (r & Hp & Hr & Hk & Hd).
  rewrite Hp in H. rewrite (backtrack_none _ _ _ H (String.length g)) in Hd by lia.
  discriminate.
Qed.

Lemma matches_at_tail (c c' : ascii) (t a g b : string) :
  matches_at pre cls post (String c t) (String c' a) g b ->
  matches_at pre cls post t a g b.
Proof.
  intros (Hs & Hne & Hall). cbn in Hs. injection Hs as _ Hs. now repeat split.
Qed.

Lemma matches_at_cons (c : ascii) (t a g b : string) :
  matches_at pre cls post t a g b ->
  matches_at pre cls post (String c t) (String c a) g b.
Proof.
  intros (Hs & Hne & Hall). repeat split; auto. cbn. now rewrite <- Hs.
Qed.

Lemma re_search_some (s g : string) :
  re_search pre cls post s = Some g ->
  exists a b, first_match pre cls post s a g b.
Proof.
  induction s as [|c t IH]; cbn.
  - destruct (match_here pre cls post "") as [g0|] eqn:Hh; [| discriminate].
    intros [= ->]. apply match_here_some in Hh as (b & Hm & Hmax).
    exists EmptyString, b. split; [assumption |].
    intros [|c' a'] g' b' Hm'; [right; split; [reflexivity | eauto] | left; cbn; lia].
  - destruct (match_here pre cls post (String c t)) as [g0|] eqn:Hh.
    + intros [= ->]. apply match_here_some in Hh as (b & Hm & Hmax).
      exists EmptyString, b. split; [assumption |].
      intros [|c' a'] g' b' Hm'; [right; split; [reflexivity | eauto] | left; cbn; lia].
    + intros H. destruct (IH H) as (a & b & Hm & Hfirst).
      exists (String c a), b. split; [now apply matches_at_cons |].
      intros [|c' a'] g' b' Hm'.
      * exfalso. eapply match_here_none; eauto.
      * apply matches_at_tail in Hm'. destruct (Hfirst _ _ _ Hm') as [Hlt|[He Hl]].
        -- left. cbn. lia.
        -- right. cbn. split; [lia | assumption].
Qed.

Lemma re_search_none (s : string) :
  re_search pre cls post s = None ->
  forall a g b, ~ matches_at pre cls post s a g b.
Proof.
  induction s as [|c t IH]; cbn.
  - destruct (match_here pre cls post "") as [g0|] eqn:Hh; [discriminate |].
    intros _ [|c' a] g b Hm.
    + eapply match_here_none; eauto.
    + destruct Hm as (Hs & _). cbn in Hs. discriminate.
  - destruct (match_here pre cls post (String c t)) as [g0|] eqn:Hh; [discriminate |].
    intros H [|c' a] g b Hm.
    + eapply match_here_none; eauto.
    + apply matches_at_tail in Hm. eapply IH; eauto.
Qed.

(** [re_search] returns exactly the group of the leftmost, longest match. *)
Lemma re_search_first_match (s g : string) :
  re_search pre cls post s = Some g <->
  exists a b, first_match pre cls post s a g b.
Proof.
  split; [apply re_search_some |].
  intros (a & b & Hm & Hfirst).
  destruct (re_search pre cls post s) as [g0|] eqn:Hr.
  - destruct (re_search_some _ _ Hr) as (a0 & b0 & Hm0 & Hfirst0).
    pose proof (Hfirst _ _ _ Hm0) as H1. pose proof (Hfirst0 _ _ _ Hm) as H2.
    assert (La : String.length a = String.length a0) by lia.
    assert (Lg : String.length g = String.length g0) by lia.
    destruct Hm as (Hs & _). destruct Hm0 as (Hs0 & _). rewrite Hs in Hs0.
    apply sapp_same_length in Hs0 as [_ Hs0]; [| assumption].
    apply sapp_inv_head in Hs0. apply sapp_same_length in Hs0 as [-> _]; auto.
  - exfalso. eapply re_search_none; eauto.
Qed.

Lemma re_search_absent (s : string) :
  re_search pre cls post s = None <->
  forall a g b, ~ matches_at pre cls post s a g b.
Proof.
  split; [apply re_search_none |].
  intros H. destruct (re_search pre cls post s) as [g|] eqn:Hr; [| reflexivity].
  destruct (re_search_some _ _ Hr) as (a & b & Hm & _). exfalso. eapply H; eauto.
Qed.

End Matcher.

(** ** The validators *)

Section Validators.
Variable Conn : Type.
Variable W : World Conn.
Variable device : NetworkDevice.

Lemma send_command_raises (s : session Conn) command expect delay e :
  fst (send_command W device command expect delay s) = inl e ->
  exists m, e = DeviceConnectionError m.
Proof.
  unfold send_command, bind, record_call, modify, gets, raise. cbn.
  destruct (connection s) as [conn|]; cbn.
  - unfold try_except, on_connection. cbn.
    destruct (conn_send_command W command expect delay conn) as [[e'|out] conn']; cbn.
    + intros [= <-]. eauto.
    + discriminate.
  - intros [= <-]. eauto.
Qed.



Lemma group_or_unknown_absent (pre : string) (cls : ascii -> bool) (text : string) :
  (forall a g b, ~ matches_at pre cls "" text a g b) ->
  group_or_unknown (re_search pre cls "" text) = "Unknown".
Proof.
  intros H. apply re_search_absent in H. now rewrite H.
Qed.

Lemma group_or_unknown_present (pre : string) (cls : ascii -> bool)
    (text a g b : string) :
  first_match pre cls "" text a g b ->
  group_or_unknown (re_search pre cls "" text) = g.
Proof.
  intros H.
  assert (Hr : re_search pre cls "" text = Some g)
    by (apply re_search_first_match; eauto).
  now rewrite Hr.
Qed.

(** C9. [get_device_info] never raises.  When both commands give an
    output, the result maps [hostname], [version] and [uptime] to group 1
    of the leftmost match of their pattern, and to ["Unknown"] when the
    pattern occurs nowhere in the output; [device_type] and [host] are
    those of the device.  When one of the two commands fails, the result is
    the empty dictionary, still without an exception. *)
Theorem get_device_info_defaults (s : session Conn) :
  (exists d, fst (get_device_info W device s) = inr d) /\
  (forall version_output s1 hostname_output s2,
     send_command W device "show version" None 1 s = (inr version_output, s1) ->
     send_command W device "show running-config | include hostname" None 1 s1 =
       (inr hostname_output, s2) ->
     exists d, get_device_info W device s = (inr d, s2) /\
       ((forall a g b, ~ matches_at "hostname " is_non_space "" hostname_output a g b) ->
        lookup "hostname" d = Some "Unknown") /\
       ((forall a g b, ~ matches_at "Version " is_non_space "" version_output a g b) ->
        lookup "version" d = Some "Unknown") /\
       ((forall a g b, ~ matches_at "uptime is " is_dot "" version_output a g b) ->
        lookup "uptime" d = Some "Unknown") /\
       (forall a g b, first_match "hostname " is_non_space "" hostname_output a g b ->
        lookup "hostname" d = Some g) /\
       (forall a g b, first_match "Version " is_non_space "" version_output a g b ->
        lookup "version" d = Some g) /\
       (forall a g b, first_match "uptime is " is_dot "" version_output a g b ->
        lookup "uptime" d = Some g) /\
       lookup "device_type" d = Some (device_type device) /\
       lookup "host" d = Some (host device)) /\
  (forall e s1,
     send_command W device "show version" None 1 s = (inl e, s1) ->
     get_device_info W device s = (inr [], s1)) /\
  (forall version_output s1 e s2,
     send_command W device "show version" None 1 s = (inr version_output, s1) ->
     send_command W device "show running-config | include hostname" None 1 s1 =
       (inl e, s2) ->
     get_device_info W device s = (inr [], s2)).
Proof.
  unfold get_device_info, get_device_info_body, try_except, bind, ret.
  split; [| split; [| split]].
  - destruct (send_command W device "show version" None 1 s) as [[e|vo] s1];
      [eexists; reflexivity |].
    destruct (send_command W device "show running-config | include hostname" None 1 s1)
      as [[e|ho] s2]; eexists; reflexivity.
  - intros vo s1 ho s2 H1 H2. rewrite H1, H2. eexists. split; [reflexivity |].
    cbn [lookup String.eqb Ascii.eqb Bool.eqb].
    repeat split.
    + intros H. now rewrite group_or_unknown_absent.
    + intros H. now rewrite group_or_unknown_absent.
    + intros H. now rewrite group_or_unknown_absent.
    + intros a g b H. now rewrite (group_or_unknown_present _ _ _ a g b H).
    + intros a g b H. now rewrite (group_or_unknown_present _ _ _ a g b H).
    + intros a g b H. now rewrite (group_or_unknown_present _ _ _ a g b H).
  - intros e s1 H1. now rewrite H1.
  - intros vo s1 e s2 H1 H2. now rewrite H1, H2.
Qed.

End Validators.

(** ** Rules for [triple] *)

Section Triples.
Context {S : Type}.

Lemma triple_ret {A} (P : S -> Prop) (a : A) (Q : A -> S -> Prop) E :
  (forall s, P s -> Q a s) -> triple P (ret a) Q E.
Proof. intros H s Hs. cbn. auto. Qed.

Lemma triple_raise {A} (P : S -> Prop) (e : exn) (Q : A -> S -> Prop) E :
  (forall s, P s -> E e s) -> triple P (raise e) Q E.
Proof. intros H s Hs. cbn. auto. Qed.

Lemma triple_modify (P : S -> Prop) (f : S -> S) (Q : unit -> S -> Prop) E :
  (forall s, P s -> Q tt (f s)) -> triple P (modify f) Q E.
Proof. intros H s Hs. cbn. auto. Qed.

Lemma triple_gets {A} (P : S -> Prop) (f : S -> A) (Q : A -> S -> Prop) E :
  (forall s, P s -> Q (f s) s) -> triple P (gets f) Q E.
Proof. intros H s Hs. cbn. auto. Qed.

Lemma triple_bind {A B} (P : S -> Prop) (m : M S A) (k : A -> M S B)
    (Q1 : A -> S -> Prop) (Q : B -> S -> Prop) E :
  triple P m Q1 E -> (forall a, triple (Q1 a) (k a) Q E) ->
  triple P (bind m k) Q E.
Proof.
  intros Hm Hk s Hs. specialize (Hm s Hs). unfold bind.
  destruct (m s) as [[e|a] s']; [assumption |]. now apply Hk.
Qed.

Lemma triple_try_except {A} (P : S -> Prop) (m : M S A) (h : exn -> M S A)
    (Q : A -> S -> Prop) (E1 E : exn -> S -> Prop) :
  triple P m Q E1 -> (forall e, triple (E1 e) (h e) Q E) ->
  triple P (try_except m h) Q E.
Proof.
  intros Hm Hh s Hs. specialize (Hm s Hs). unfold try_except.
  destruct (m s) as [[e|a] s']; [now apply Hh | assumption].
Qed.

Lemma triple_try_finally {A} (P : S -> Prop) (m : M S A) (f : S -> S)
    (Q1 : A -> S -> Prop) (E1 : exn -> S -> Prop) (Q : A -> S -> Prop) E :
  triple P m Q1 E1 ->
  (forall a s, Q1 a s -> Q a (f s)) -> (forall e s, E1 e s -> E e (f s)) ->
  triple P (try_finally m f) Q E.
Proof.
  intros Hm HQ HE s Hs. specialize (Hm s Hs). unfold try_finally.
  destruct (m s) as [[e|a] s']; auto.
Qed.

Lemma triple_conseq {A} (P P' : S -> Prop) (m : M S A)
    (Q Q' : A -> S -> Prop) (E E' : exn -> S -> Prop) :
  triple P' m Q' E' ->
  (forall s, P s -> P' s) -> (forall a s, Q' a s -> Q a s) ->
  (forall e s, E' e s -> E e s) ->
  triple P m Q E.
Proof.
  intros Hm HP HQ HE s Hs. specialize (Hm s (HP s Hs)).
  destruct (m s) as [[e|a] s']; auto.
Qed.

Lemma preserves_ret {A} (I : S -> Prop) (a : A) : preserves I (ret a).
Proof. apply triple_ret. auto. Qed.

Lemma preserves_raise {A} (I : S -> Prop) (e : exn) : preserves I (@raise S A e).
Proof. apply triple_raise. auto. Qed.

Lemma preserves_bind {A B} (I : S -> Prop) (m : M S A) (k : A -> M S B) :
  preserves I m -> (forall a, preserves I (k a)) -> preserves I (bind m k).
Proof. intros Hm Hk. eapply triple_bind; [exact Hm | exact Hk]. Qed.

Lemma preserves_try_except {A} (I : S -> Prop) (m : M S A) (h : exn -> M S A) :
  preserves I m -> (forall e, preserves I (h e)) -> preserves I (try_except m h).
Proof. intros Hm Hh. eapply triple_try_except; [exact Hm | exact Hh]. Qed.

Lemma preserves_modify (I : S -> Prop) (f : S -> S) :
  (forall s, I s -> I (f s)) -> preserves I (modify f).
Proof. intros H. apply triple_modify. exact H. Qed.

Lemma preserves_gets {A} (I : S -> Prop) (f : S -> A) : preserves I (gets f).
Proof. apply triple_gets. auto. Qed.

(** What a [preserves] says about one run. *)
Lemma preserves_run {A} (I : S -> Prop) (m : M S A) (s : S) :
  preserves I m -> I s -> I (snd (m s)).
Proof.
  intros H Hs. specialize (H s Hs). destruct (m s) as [[e|a] s']; exact H.
Qed.

End Triples.

(** ** Which calls a method records *)

Section Calls.
Variable Conn : Type.
Variable W : World Conn.
Variable ok : event -> Prop.

Lemma preserves_record_call (e : event) :
  ok e -> preserves (all_calls ok) (record_call (Conn := Conn) e).
Proof.
  intros He. apply preserves_modify. intros s Hs. unfold all_calls, logged. cbn.
  apply Forall_app. split; [exact Hs | constructor; [exact He | constructor]].
Qed.

Lemma preserves_set_connection (c : option Conn) :
  preserves (all_calls ok) (modify (set_connection c)).
Proof. apply preserves_modify. intros s Hs. exact Hs. Qed.

Lemma preserves_on_connection {A} (f : Conn -> (exn + A) * Conn) (conn : Conn) :
  preserves (all_calls ok) (on_connection f conn).
Proof.
  intros s Hs. unfold on_connection. destruct (f conn) as [[e|a] conn']; exact Hs.
Qed.

Ltac pres :=
  repeat first
    [ apply preserves_ret
    | apply preserves_raise
    | apply preserves_gets
    | apply preserves_set_connection
    | apply preserves_on_connection
    | apply preserves_record_call; solve [auto]
    | apply preserves_bind; [| intros ?]
    | apply preserves_try_except; [| intros ?]
    | match goal with
      | |- preserves _ (match ?x with _ => _ end) => destruct x
      end ].

Lemma preserves_init h dt p u pw sec :
  ok EvGetCredentials ->
  preserves (all_calls ok) (NetworkDevice_init W h dt p u pw sec).
Proof. intros H. unfold NetworkDevice_init. pres. Qed.

Lemma preserves_connect (self : NetworkDevice) :
  ok EvConnect -> preserves (all_calls ok) (connect W self).
Proof. intros H. unfold connect. pres. Qed.

Lemma preserves_disconnect (self : NetworkDevice) :
  ok EvDisconnect -> preserves (all_calls ok) (disconnect W self).
Proof.
  intros H. unfold disconnect. pres.
  eapply triple_try_finally; [| intros ? ? Hs; exact Hs | intros ? ? Hs; exact Hs].
  pres.
Qed.

Lemma preserves_send_command (self : NetworkDevice) command expect delay :
  ok (EvSendCommand command) ->
  preserves (all_calls ok) (send_command W self command expect delay).
Proof. intros H. unfold send_command. pres. Qed.

Lemma preserves_send_config_set (self : NetworkDevice) commands exit_mode delay :
  ok (EvSendConfigSet commands) ->
  preserves (all_calls ok) (send_config_set W self commands exit_mode delay).
Proof. intros H. unfold send_config_set. pres. Qed.

Lemma preserves_save_config (self : NetworkDevice) :
  ok EvSaveConfig -> preserves (all_calls ok) (save_config W self).
Proof. intros H. unfold save_config. pres. Qed.

Lemma preserves_is_alive (self : NetworkDevice) :
  ok EvIsAlive -> preserves (all_calls ok) (is_alive W self).
Proof. intros H. unfold is_alive. pres. Qed.

Lemma preserves_render_template name vars :
  ok (EvRenderTemplate name vars) ->
  preserves (all_calls ok) (render_template W name vars).
Proof. intros H. unfold render_template. pres. Qed.

Lemma preserves_verify_connectivity (self : NetworkDevice) :
  ok EvIsAlive -> preserves (all_calls ok) (verify_connectivity W self).
Proof.
  intros H. unfold verify_connectivity. pres.
Qed.

Lemma preserves_get_device_info (self : NetworkDevice) :
  (forall command, ok (EvSendCommand command)) ->
  preserves (all_calls ok) (get_device_info W self).
Proof.
  intros H. unfold get_device_info, get_device_info_body.
  pres.
Qed.

(** On the frame of a task: a session method keeps the result, and an
    update of the result keeps the session. *)
Lemma preserves_on_session_calls {A} (m : M (session Conn) A) :
  preserves (all_calls ok) m ->
  preserves (fun f : frame Conn => all_calls ok (sess f)) (on_session m).
Proof.
  intros Hm f Hf. unfold on_session, zoom. specialize (Hm (sess f) Hf).
  destruct (m (sess f)) as [[e|a] t]; exact Hm.
Qed.

Lemma preserves_update_result_calls (g : OperationResult -> OperationResult) :
  preserves (fun f : frame Conn => all_calls ok (sess f)) (update_result g).
Proof. apply preserves_modify. intros f Hf. exact Hf. Qed.

Lemma preserves_on_session_result {A} (R : OperationResult -> Prop)
    (m : M (session Conn) A) :
  preserves (fun f : frame Conn => R (result f)) (on_session m).
Proof.
  intros f Hf. unfold on_session, zoom.
  destruct (m (sess f)) as [[e|a] t]; exact Hf.
Qed.

Lemma preserves_update_result (R : OperationResult -> Prop)
    (g : OperationResult -> OperationResult) :
  (forall r, R r -> R (g r)) ->
  preserves (fun f : frame Conn => R (result f)) (update_result g).
Proof. intros H. apply preserves_modify. intros f Hf. cbn. auto. Qed.

End Calls.

(** ** One device *)

Lemma triple_bind_keep {S A B} (I : S -> Prop) (m : M S A) (k : A -> M S B)
    (Q : B -> S -> Prop) :
  preserves I m -> (forall a, triple I (k a) Q (fun _ => I)) ->
  triple I (bind m k) Q (fun _ => I).
Proof. intros Hm Hk. eapply triple_bind; [exact Hm | exact Hk]. Qed.

Section OneDevice.
Variable Conn : Type.
Variable W : World Conn.
Variable self : ConfigurationTask.
Variable device_info : DeviceInfo.
Variable config_commands : option (list string).
Variable template_name : option string.
Variable template_vars : option mapping.
Variable save_config_ validate_after : bool.

Let body : M (frame Conn) unit :=
  configure_device_body W self device_info config_commands template_name
    template_vars save_config_ validate_after.

(** An invariant [R] of the result that every step before the last two
    keeps: nothing but [output] and [validation] is written. *)
Ltac keep R :=
  repeat first
    [ apply preserves_ret
    | apply preserves_raise
    | apply (preserves_on_session_result Conn R)
    | apply (preserves_update_result Conn R); solve [intros [] ?; assumption]
    | apply preserves_bind; [| intros ?]
    | match goal with
      | |- preserves _ (match ?x with _ => _ end) => destruct x
      end ].

Lemma body_success_flag :
  triple (fun f : frame Conn => pending (result f)) body
    (fun _ f => success (result f) = true /\
                message (result f) = "Configuration applied successfully")
    (fun _ f => pending (result f)).
Proof.
  unfold body, configure_device_body, require_host.
  pose (R := pending).
  apply triple_bind_keep; [keep R | intros h; cbv beta].
  apply triple_bind_keep; [keep R | intros device; cbv beta].
  apply triple_bind_keep; [keep R | intros _; cbv beta].
  apply triple_bind_keep; [keep R | intros commands; cbv beta].
  destruct (negb (truthy_list commands)); [apply triple_raise; auto |].
  apply triple_bind_keep; [keep R | intros _; cbv beta].
  apply triple_bind_keep; [keep R | intros _; cbv beta].
  apply triple_bind_keep; [keep R | intros _; cbv beta].
  eapply triple_bind with (Q1 := fun _ f => success (result f) = true).
  - apply triple_modify. intros f _. reflexivity.
  - intros _. apply triple_modify. intros f Hf. cbn. auto.
Qed.

(** C3. [configure_device] always returns a result.  When its pipeline
    raises [e], the result has [success] false and a message made of the
    prefix of the kind of [e] and of [str(e)]: ["Connection error: "] for a
    [DeviceConnectionError], ["Validation error: "] for a
    [ValidationError], ["Error: "] for anything else.  When the pipeline
    ends without an exception the result has [success] true. *)
Theorem configure_device_classifies_errors :
  let r := configure_device W self device_info config_commands template_name
             template_vars save_config_ validate_after in
  match fst (body (initial_frame Conn device_info)) with
  | inr _ =>
      success r = true /\ message r = "Configuration applied successfully"
  | inl e =>
      success r = false /\
      message r =
        match e with
        | DeviceConnectionError m => ("Connection error: " ++ m)%string
        | ValidationError m => ("Validation error: " ++ m)%string
        | _ => ("Error: " ++ str_exn e)%string
        end
  end.
Proof.
  cbv zeta. unfold configure_device, configure_device_frame, try_except.
  fold body.
  pose proof (body_success_flag (initial_frame Conn device_info) eq_refl) as H.
  destruct (body (initial_frame Conn device_info)) as [[e|[]] f]; cbn [fst snd].
  - unfold update_result, modify. cbn [snd result success message set_message].
    split; [exact H |]. destruct e; reflexivity.
  - exact H.
Qed.

Lemma triple_and {S A} (P1 P2 : S -> Prop) (m : M S A)
    (Q1 Q2 : A -> S -> Prop) (E1 E2 : exn -> S -> Prop) :
  triple P1 m Q1 E1 -> triple P2 m Q2 E2 ->
  triple (fun s => P1 s /\ P2 s) m (fun a s => Q1 a s /\ Q2 a s)
    (fun e s => E1 e s /\ E2 e s).
Proof.
  intros H1 H2 s [Hs1 Hs2]. specialize (H1 s Hs1). specialize (H2 s Hs2).
  destruct (m s) as [[e|a] s']; auto.
Qed.

Lemma on_session_disconnect_result (R : OperationResult -> Prop)
    (device : NetworkDevice) (E : exn -> frame Conn -> Prop) :
  triple (fun f : frame Conn => R (result f)) (on_session (disconnect W device))
    (fun _ f => R (result f)) E.
Proof.
  intros f Hf. unfold on_session, zoom.
  destruct (disconnect_resets Conn W device (sess f)) as [Hr _].
  destruct (disconnect W device (sess f)) as [[e|[]] t]; cbn in *;
    [discriminate | exact Hf].
Qed.

Lemma body_keeps_host (h : string) :
  preserves (fun f : frame Conn => hosted h (result f)) body.
Proof.
  unfold body, configure_device_body, require_host. keep (hosted h).
Qed.

Lemma configure_device_host :
  r_host (configure_device W self device_info config_commands template_name
            template_vars save_config_ validate_after) =
  get_default (di_host device_info) "unknown".
Proof.
  unfold configure_device, configure_device_frame, try_except. fold body.
  pose proof (body_keeps_host (get_default (di_host device_info) "unknown")
                (initial_frame Conn device_info) eq_refl) as H.
  destruct (body (initial_frame Conn device_info)) as [[e|[]] f]; exact H.
Qed.



Lemma triple_any {S A} (P : S -> Prop) (m : M S A) :
  triple P m (fun _ _ => True) (fun _ _ => True).
Proof. intros s _. destruct (m s) as [[e|a] s']; exact I. Qed.

Lemma on_session_disconnect_releases (device : NetworkDevice)
    (P : frame Conn -> Prop) (E : exn -> frame Conn -> Prop) :
  triple P (on_session (disconnect W device)) (fun _ f => released f) E.
Proof.
  intros f _. unfold on_session, zoom, released.
  destruct (disconnect_resets Conn W device (sess f)) as [Hr Hc].
  pose proof (disconnect_recorded Conn W device (sess f)) as Hin.
  destruct (disconnect W device (sess f)) as [[e|[]] t]; cbn in *;
    [discriminate | split; assumption].
Qed.

Lemma body_releases :
  triple (fun _ : frame Conn => True) body (fun _ f => released f) (fun _ _ => True).
Proof.
  unfold body, configure_device_body, require_host.
  eapply triple_bind; [apply (triple_any (fun _ => True)) | intros h; cbv beta].
  eapply triple_bind; [apply (triple_any (fun _ => True)) | intros device; cbv beta].
  eapply triple_bind; [apply (triple_any (fun _ => True)) | intros ?; cbv beta].
  eapply triple_bind; [apply (triple_any (fun _ => True)) | intros commands; cbv beta].
  destruct (negb (truthy_list commands)); [apply triple_raise; auto |].
  eapply triple_bind; [apply (triple_any (fun _ => True)) | intros ?; cbv beta].
  eapply triple_bind; [apply (triple_any (fun _ => True)) | intros ?; cbv beta].
  eapply triple_bind; [apply on_session_disconnect_releases | intros ?; cbv beta].
  eapply triple_bind with (Q1 := fun _ f => released f).
  - apply triple_modify. intros f Hf. exact Hf.
  - intros _. apply triple_modify. intros f Hf. exact Hf.
Qed.

(** On the path without exception the session is released. *)
Lemma configure_device_releases_on_success :
  let f := configure_device_frame W self device_info config_commands
             template_name template_vars save_config_ validate_after in
  success (result f) = true -> released f.
Proof.
  cbv zeta. unfold configure_device_frame, try_except. fold body.
  pose proof (body_success_flag (initial_frame Conn device_info) eq_refl) as Hp.
  pose proof (body_releases (initial_frame Conn device_info) I) as Hr.
  destruct (body (initial_frame Conn device_info)) as [[e|[]] f]; cbn [fst snd].
  - unfold update_result, modify. cbn [snd result success set_message].
    unfold pending in Hp. congruence.
  - intros _. exact Hr.
Qed.

Section DryRun.
Hypothesis Hdry : dry_run self = true.

Lemma body_dry_output :
  triple (fun f : frame Conn => blank (result f)) body
    (fun _ f => marked (result f))
    (fun _ f => blank (result f)).
Proof.
  unfold body, configure_device_body, require_host. rewrite Hdry.
  rewrite andb_false_r.
  apply triple_bind_keep; [keep blank | intros h; cbv beta].
  apply triple_bind_keep; [keep blank | intros device; cbv beta].
  apply triple_bind_keep; [keep blank | intros _; cbv beta].
  apply triple_bind_keep; [keep blank | intros commands; cbv beta].
  destruct (negb (truthy_list commands)); [apply triple_raise; auto |].
  eapply triple_bind with (Q1 := fun _ f => marked (result f)).
  { apply triple_modify. intros f _. reflexivity. }
  intros _. eapply triple_bind with (Q1 := fun _ f => marked (result f)).
  { apply triple_ret. auto. }
  intros _. eapply triple_bind with (Q1 := fun _ f => marked (result f)).
  { apply on_session_disconnect_result. }
  intros _. eapply triple_bind with (Q1 := fun _ f => marked (result f)).
  { apply triple_modify. intros f Hf. exact Hf. }
  intros _. apply triple_modify. intros f Hf. exact Hf.
Qed.

Ltac keep_calls :=
  repeat first
    [ apply preserves_ret
    | apply preserves_raise
    | apply preserves_update_result_calls
    | apply preserves_on_session_calls;
      first [ apply preserves_init | apply preserves_connect
            | apply preserves_disconnect | apply preserves_render_template ];
      solve [cbn; tauto]
    | apply preserves_bind; [| intros ?]
    | match goal with
      | |- preserves _ (match ?x with _ => _ end) => destruct x
      end ].

Lemma body_dry_calls :
  preserves (fun f : frame Conn => all_calls not_apply_or_save (sess f)) body.
Proof.
  unfold body, configure_device_body, require_host, not_apply_or_save.
  rewrite Hdry. rewrite andb_false_r.
  keep_calls.
Qed.

(** C4 (amended).  In dry-run mode [configure_device] never calls
    [send_config_set] nor [save_config] on the session, whatever the
    payload.  When the operation succeeds its output is the marker
    ["DRY RUN - No changes applied"] and nothing else; when it fails its
    output is empty. *)
Theorem dry_run_applies_nothing :
  let f := configure_device_frame W self device_info config_commands
             template_name template_vars save_config_ validate_after in
  Forall not_apply_or_save (calls (sess f)) /\
  (success (result f) = true ->
   output (result f) = "DRY RUN - No changes applied") /\
  (success (result f) = false -> output (result f) = "").
Proof.
  cbv zeta. unfold configure_device_frame, try_except. fold body.
  assert (Hinit : pending (result (initial_frame Conn device_info)) /\
                  blank (result (initial_frame Conn device_info)))
    by (split; reflexivity).
  pose proof (triple_and _ _ _ _ _ _ _ body_success_flag body_dry_output
                (initial_frame Conn device_info) Hinit) as Hout.
  assert (Hnone : all_calls not_apply_or_save (sess (initial_frame Conn device_info)))
    by constructor.
  pose proof (body_dry_calls (initial_frame Conn device_info) Hnone) as Hcalls.
  destruct (body (initial_frame Conn device_info)) as [[e|[]] f]; cbn [fst snd].
  - unfold update_result, modify. cbn [snd result sess success output set_message].
    destruct Hout as [Hp Hb]. unfold pending in Hp. unfold blank in Hb.
    split; [exact Hcalls |]. split; [congruence | auto].
  - destruct Hout as [[Hs _] Hm]. unfold marked in Hm.
    split; [exact Hcalls |]. split; [auto | congruence].
Qed.

End DryRun.

End OneDevice.

(** A dry run of the commands ["a"] and ["b"]: the output is the marker
    alone, in which ["b"] does not occur, so the commands are not listed. *)
Lemma dry_run_output_omits_commands :
  let r := configure_device lab_world dry_task device1 (Some ["a"; "b"])
             None None true true in
  success r = true /\
  output r = "DRY RUN - No changes applied" /\
  ~ lists_commands (output r) ["a"; "b"].
Proof.
  cbv zeta. split; [reflexivity |]. split; [reflexivity |].
  intros H. inversion H as [|? ? _ H']. inversion H' as [|? ? Hb _].
  vm_compute in Hb. discriminate.
Qed.

Lemma dry_run_applies_nothing_witness :
  dry_run dry_task = true /\
  output (result (configure_device_frame lab_world dry_task device1
                    (Some ["a"; "b"]) None None true true)) =
    "DRY RUN - No changes applied".
Proof.
  split; [reflexivity |].
  apply (dry_run_applies_nothing unit lab_world dry_task device1
           (Some ["a"; "b"]) None None true true eq_refl).
  reflexivity.
Defined.

(** C2.  The session is not released when the pipeline raises after the
    connection is made.  With no payload at all, [configure_device]
    connects, raises [ValueError] and returns with the connection still
    open and without a call to [disconnect]; so it does when the device
    rejects the configuration that is sent. *)
Theorem configure_device_leaves_session_open :
  let f := configure_device_frame lab_world config_task device1
             None None None true true in
  let g := configure_device_frame refusing_world config_task device1
             (Some ["hostname TEST"]) None None true true in
  (success (result f) = false /\
   message (result f) = "Error: No configuration commands or template provided" /\
   calls (sess f) = [EvConnect] /\
   connection (sess f) = Some tt /\
   ~ released f) /\
  (success (result g) = false /\
   message (result g) =
     "Connection error: Error applying configuration on 192.168.1.1: Invalid input detected" /\
   calls (sess g) = [EvConnect; EvSendConfigSet ["hostname TEST"]] /\
   connection (sess g) = Some tt /\
   ~ released g).
Proof.
  cbv zeta. repeat split; intros [H _]; discriminate.
Qed.

(** C6.  A template name without variables is not rendered: with no
    variables (or with an empty mapping) and no literal commands,
    [configure_device] never calls [render_template] and fails for want of
    a payload; with literal commands next to the template name, it applies
    the literal commands. *)
Theorem template_without_variables_is_skipped :
  let none := configure_device_frame lab_world config_task device1
                None (Some "base_config.j2") None false false in
  let empty := configure_device_frame lab_world config_task device1
                 None (Some "base_config.j2") (Some []) false false in
  let both := configure_device_frame lab_world config_task device1
                (Some ["hostname LITERAL"]) (Some "base_config.j2") None false false in
  (success (result none) = false /\
   message (result none) = "Error: No configuration commands or template provided" /\
   calls (sess none) = [EvConnect]) /\
  (success (result empty) = false /\
   message (result empty) = "Error: No configuration commands or template provided" /\
   calls (sess empty) = [EvConnect]) /\
  (success (result both) = true /\
   calls (sess both) =
     [EvConnect; EvSendConfigSet ["hostname LITERAL"]; EvDisconnect]).
Proof.
  cbv zeta. repeat split.
Qed.

(** With variables the same template is rendered and its lines applied. *)
Example template_with_variables_is_rendered :
  calls (sess (configure_device_frame lab_world config_task device1
                 None (Some "base_config.j2") (Some [("hostname", "R1")])
                 false false)) =
  [EvConnect; EvRenderTemplate "base_config.j2" [("hostname", "R1")];
   EvSendConfigSet ["hostname TEST"]; EvDisconnect].
Proof. reflexivity. Qed.

(** ** Batches *)

Lemma nth_error_enumerate_from {A} (l : list A) (k i : nat) :
  nth_error (enumerate_from k l) i =
  option_map (fun x => ((k + i)%nat, x)) (nth_error l i).
Proof.
  revert k i. induction l as [|x l IH]; intros k [|i]; cbn; try reflexivity.
  - now rewrite Nat.add_0_r.
  - rewrite IH. now replace (S k + i)%nat with (k + S i)%nat by lia.
Qed.

Lemma length_enumerate_from {A} (l : list A) (k : nat) :
  length (enumerate_from k l) = length l.
Proof. revert k. induction l as [|x l IH]; intros k; cbn; [reflexivity | now rewrite IH]. Qed.





Section Batch.
Variable Conn : Type.
Variable W : World Conn.


(** [as_completed] yields every future once. *)
Hypothesis completes_each_once :
  forall n, Permutation (seq 0 n) (completion_order W n).





End Batch.



Section BatchResults.
Variable Conn : Type.
Variable W : World Conn.
Variable self : ConfigurationTask.
Variable config_commands : option (list string).
Variable template_name : option string.
Variable template_vars_list : option (list mapping).
Variable save_config_ validate_after : bool.
Variable max_workers : Z.

(** The result of the device at position [i] of the list. *)
Let configured (i : nat) (d : DeviceInfo) : OperationResult :=
  configure_device W self d config_commands template_name
    (vars_for template_vars_list i) save_config_ validate_after.

Let summary (parallel : bool) : Summary OperationResult :=
  configure_multiple_devices W self config_commands template_name
    template_vars_list save_config_ validate_after parallel max_workers.

Lemma sequential_nth (i : nat) (d : DeviceInfo) :
  nth_error (devices self) i = Some d ->
  nth_error (results (summary false)) i = Some (configured i d).
Proof.
  intros Hd. unfold summary, configure_multiple_devices, enumerate. cbn [results].
  rewrite nth_error_map, nth_error_enumerate_from, Hd. reflexivity.
Qed.

(** C5.  In sequential mode the results are as many as the devices and the
    entry at position [i] is the result of [configure_device] on the device
    at position [i], with the variables of that position; it bears the host
    of that device.  For an empty device list the summary has no results
    and all three counts are zero. *)
Theorem sequential_results_follow_devices :
  length (results (summary false)) = length (devices self) /\
  (forall i d, nth_error (devices self) i = Some d ->
     nth_error (results (summary false)) i = Some (configured i d) /\
     r_host (configured i d) = get_default (di_host d) "unknown") /\
  (devices self = [] ->
     results (summary false) = [] /\
     total_devices (summary false) = 0%Z /\
     successful (summary false) = 0%Z /\
     failed (summary false) = 0%Z).
Proof.
  split; [| split].
  - unfold summary, configure_multiple_devices, enumerate. cbn [results].
    rewrite length_map. apply length_enumerate_from.
  - intros i d Hd. split; [now apply sequential_nth |].
    apply configure_device_host.
  - intros Hnil. unfold summary, configure_multiple_devices. rewrite Hnil.
    repeat split.
Qed.

Section Completion.
Hypothesis completes_each_once :
  forall n, Permutation (seq 0 n) (completion_order W n).



End Completion.
End BatchResults.

(** ** The properties at work in the laboratory *)

Lemma sequential_results_follow_devices_witness :
  nth_error (devices config_task) 1 = Some device2 /\
  nth_error
    (results (configure_multiple_devices lab_world config_task
                (Some ["hostname TEST"]) None None false false false 5)) 1 =
  Some (configure_device lab_world config_task device2
          (Some ["hostname TEST"]) None (vars_for None 1) false false).
Proof.
  split; [reflexivity |].
  destruct (sequential_results_follow_devices unit lab_world config_task
              (Some ["hostname TEST"]) None None false false 5) as (_ & H & _).
  apply (H 1%nat device2). reflexivity.
Defined.



Lemma get_device_info_defaults_witness :
  exists d,
    fst (get_device_info (echo_world "no facts here") admin_device open_session) =
      inr d /\
    lookup "hostname" d = Some "Unknown" /\
    lookup "version" d = Some "Unknown" /\
    lookup "uptime" d = Some "Unknown".
Proof.
  destruct (get_device_info_defaults unit (echo_world "no facts here") admin_device
              open_session) as (_ & H & _).
  edestruct (H "no facts here" _ "no facts here" _ eq_refl eq_refl)
    as (d & Hd & Hh & Hv & Hu & _).
  exists d. split; [now rewrite Hd |].
  split; [apply Hh; now apply re_search_absent |].
  split; [apply Hv; now apply re_search_absent |].
  apply Hu; now apply re_search_absent.
Defined.

(** The three outputs of the specification. *)
Example ping_full_rate_succeeds :
  fst (verify_ip_connectivity (echo_world "Success rate is 100 percent")
         admin_device "10.0.0.1" 3 open_session) = inr true.
Proof. reflexivity. Qed.

Example ping_low_rate_fails :
  fst (verify_ip_connectivity (echo_world "Success rate is 40 percent")
         admin_device "10.0.0.1" 3 open_session) =
  inl (ValidationError "Ping to 10.0.0.1 failed (40%) from 192.168.1.1").
Proof. reflexivity. Qed.

Example ping_unparseable_fails :
  fst (verify_ip_connectivity (echo_world "% Unrecognized host or address")
         admin_device "10.0.0.1" 3 open_session) =
  inl (ValidationError "Could not parse ping results for 10.0.0.1 from 192.168.1.1").
Proof. reflexivity. Qed.

Example ping_without_connection_fails :
  fst (verify_ip_connectivity lab_world admin_device "10.0.0.1" 3 (new_session unit)) =
  inl (ValidationError "Not connected to 192.168.1.1").
Proof. reflexivity. Qed.

Example device_info_without_facts :
  fst (get_device_info (echo_world "no facts here") admin_device open_session) =
  inr [("hostname", "Unknown"); ("version", "Unknown"); ("uptime", "Unknown");
       ("device_type", "cisco_ios"); ("host", "192.168.1.1")].
Proof. reflexivity. Qed.

Example device_info_without_connection :
  fst (get_device_info lab_world admin_device (new_session unit)) = inr [].
Proof. reflexivity. Qed.

Example device_info_with_facts :
  fst (get_device_info
         (echo_world "hostname R1 Cisco IOS Software, Version 15.2(4)M, R1 uptime is 2 weeks")
         admin_device open_session) =
  inr [("hostname", "R1"); ("version", "15.2(4)M,"); ("uptime", "2 weeks");
       ("device_type", "cisco_ios"); ("host", "192.168.1.1")].
Proof. reflexivity. Qed.

(** A sequential batch in which the second device has no credentials: the
    first is configured, the second fails, both are recorded. *)
Example mixed_batch :
  let s := configure_multiple_devices lab_world mixed_task
             (Some ["hostname TEST"]) None None false false false 5 in
  total_devices s = 2%Z /\ successful s = 1%Z /\ failed s = 1%Z /\
  map success (results s) = [true; false] /\
  map r_host (results s) = ["192.168.1.1"; "192.168.1.9"].
Proof. cbv zeta. repeat split. Qed.

(** * Further properties *)

(** ** Credentials and the constructor of a device *)

Section Construction.
Variable Conn : Type.
Variable W : World Conn.

Lemma validate_credentials_iff :
  validate_credentials W = true <->
  truthy (os_getenv W "DEVICE_USERNAME") = true /\
  truthy (os_getenv W "DEVICE_PASSWORD") = true.
Proof.
  unfold validate_credentials, get_device_credentials.
  destruct (truthy (os_getenv W "DEVICE_USERNAME"));
    destruct (truthy (os_getenv W "DEVICE_PASSWORD")); cbn;
    split; intros H; try discriminate; try (destruct H; discriminate); auto.
Qed.

(** X1.  [NetworkDevice.__init__] raises exactly when the caller gives no
    user name or no password and the environment gives no user name or no
    password either; the exception is then the [ValueError] of
    [get_device_credentials].  In particular, once
    [validate_credentials] holds, no construction raises. *)
Theorem init_raises_only_without_credentials
    (h dt : string) (p : Z) (u pw sec : option string) (s : session Conn) :
  let run := NetworkDevice_init W h dt p u pw sec s in
  ((exists e, fst run = inl e) <->
   (truthy u = false \/ truthy pw = false) /\ validate_credentials W = false) /\
  (forall e, fst run = inl e -> e = ValueError missing_credentials) /\
  (validate_credentials W = true -> exists d, fst run = inr d).
Proof.
  cbv zeta. unfold NetworkDevice_init, bind, modify, record_call, ret, raise.
  cbn [fst snd].
  pose proof validate_credentials_iff as Hv.
  unfold validate_credentials in *. unfold get_device_credentials in *.
  destruct (truthy u), (truthy pw); cbn [negb orb fst snd];
    try (split; [split; [intros [e He]; discriminate
                        | intros [[H|H] _]; discriminate]
                | split; [intros e He; discriminate | intros _; eexists; reflexivity]]).
  all: destruct (negb (truthy (os_getenv W "DEVICE_USERNAME")) ||
                 negb (truthy (os_getenv W "DEVICE_PASSWORD"))); cbn [fst snd].
  all: split; [split | split].
  all: try (intros _; split; [auto | reflexivity]).
  all: try (intros [e He]; discriminate).
  all: try (intros [_ He]; discriminate).
  all: try (intros e [= <-]; reflexivity).
  all: try (intros e He; discriminate).
  all: try (intros He; discriminate).
  all: try (intros _; eexists; reflexivity).
  all: try (eexists; reflexivity).
Qed.

(** X2.  With a user name and a password of its own a device is built
    from its arguments alone: the environment is not read (nothing is
    recorded and the world plays no part), and the secret is the one given,
    be it absent or empty; [DEVICE_ENABLE_SECRET] is not consulted. *)
Theorem explicit_credentials_bypass_environment
    (h dt : string) (p : Z) (u pw sec : option string) (s : session Conn) :
  truthy u = true -> truthy pw = true ->
  NetworkDevice_init W h dt p u pw sec s =
  (inr {| host := h; device_type := dt; port := p;
          timeout := 30; session_timeout := 60;
          username := u; password := pw; secret := sec |},
   set_connection None s).
Proof.
  intros Hu Hp. unfold NetworkDevice_init, bind, modify, ret. cbn [fst snd].
  rewrite Hu, Hp. reflexivity.
Qed.


End Construction.

Lemma init_raises_only_without_credentials_witness :
  validate_credentials office_world = true /\
  exists d, fst (NetworkDevice_init office_world "192.168.1.9" "cisco_ios" 22
                   None None None (new_session unit)) = inr d.
Proof.
  split; [reflexivity |].
  apply (init_raises_only_without_credentials unit office_world
           "192.168.1.9" "cisco_ios" 22 None None None (new_session unit)).
  reflexivity.
Defined.

Lemma explicit_credentials_bypass_environment_witness :
  truthy (Some "admin") = true /\ truthy (Some "password123") = true /\
  fst (NetworkDevice_init office_world "192.168.1.1" "cisco_ios" 22
         (Some "admin") (Some "password123") None (new_session unit)) =
  inr admin_device.
Proof.
  split; [reflexivity |]. split; [reflexivity |].
  rewrite (explicit_credentials_bypass_environment unit office_world
             "192.168.1.1" "cisco_ios" 22 (Some "admin") (Some "password123") None
             (new_session unit) eq_refl eq_refl).
  reflexivity.
Defined.


(** ** Connecting, sending and the context manager *)

Section Connecting.
Variable Conn : Type.
Variable W : World Conn.
Variable self : NetworkDevice.

Lemma connect_error_is_connection_error (e : exn) :
  exists m, connect_error self e = DeviceConnectionError m.
Proof. destruct e; eexists; reflexivity. Qed.

(** X4.  [connect] has two outcomes only: it returns [True] with a
    connection in place, or it raises [DeviceConnectionError].  When
    [ConnectHandler] itself raises, the message names the kind of failure
    (time-out, authentication, SSH, or unexpected) and the host, and
    [self.connection] is left as it was. *)
Theorem connect_outcomes (s : session Conn) :
  let run := connect W self s in
  ((fst run = inr true /\ exists conn, connection (snd run) = Some conn) \/
   (exists m, fst run = inl (DeviceConnectionError m))) /\
  (forall e, ConnectHandler W (connect_params self) = inl e ->
     run = (inl (connect_error self e), logged s EvConnect) /\
     connection (snd run) = connection s) /\
  (forall m,
     connect_error self (NetmikoTimeoutException m) =
       DeviceConnectionError ("Connection timeout to " ++ host self ++ ": " ++ m) /\
     connect_error self (NetmikoAuthenticationException m) =
       DeviceConnectionError ("Authentication failed for " ++ host self ++ ": " ++ m) /\
     connect_error self (SSHException m) =
       DeviceConnectionError ("SSH error connecting to " ++ host self ++ ": " ++ m) /\
     connect_error self (OtherException m) =
       DeviceConnectionError ("Unexpected error connecting to " ++ host self ++ ": " ++ m)).
Proof.
  cbv zeta. split; [| split].
  - unfold connect, bind, try_except, record_call, modify, gets, ret, raise,
      on_connection. cbn [fst snd].
    destruct (ConnectHandler W (connect_params self)) as [e|conn]; cbn [fst snd].
    + right. destruct e; eexists; reflexivity.
    + destruct (truthy (secret self)); cbn [fst snd].
      * destruct (conn_check_enable_mode W conn) as [[e|[|]] c1]; cbn.
        -- right. destruct e; eexists; reflexivity.
        -- left. split; [reflexivity | eexists; reflexivity].
        -- destruct (conn_enable W c1) as [[e|[]] c2]; cbn.
           ++ right. destruct e; eexists; reflexivity.
           ++ left. split; [reflexivity | eexists; reflexivity].
      * left. split; [reflexivity | eexists; reflexivity].
  - intros e He.
    unfold connect, bind, try_except, record_call, modify, raise. cbn [fst snd].
    rewrite He. cbn. split; reflexivity.
  - intros m. repeat split.
Qed.

(** X5.  Enable mode is entered only for a device with a non-empty
    secret, and only when the connection is not in it already.  When the
    query or [enable] raises, [connect] raises [DeviceConnectionError]
    while the connection that was made stays in [self.connection]. *)
Theorem connect_enable_mode (s : session Conn) (conn : Conn) :
  ConnectHandler W (connect_params self) = inr conn ->
  (truthy (secret self) = false ->
     connect W self s = (inr true, set_connection (Some conn) (logged s EvConnect))) /\
  (truthy (secret self) = true ->
     forall c1, conn_check_enable_mode W conn = (inr true, c1) ->
     connect W self s = (inr true, set_connection (Some c1) (logged s EvConnect))) /\
  (truthy (secret self) = true ->
     forall e c1, conn_check_enable_mode W conn = (inl e, c1) ->
     connect W self s =
       (inl (connect_error self e), set_connection (Some c1) (logged s EvConnect))) /\
  (truthy (secret self) = true ->
     forall e c1 c2, conn_check_enable_mode W conn = (inr false, c1) ->
     conn_enable W c1 = (inl e, c2) ->
     connect W self s =
       (inl (connect_error self e), set_connection (Some c2) (logged s EvConnect))).
Proof.
  intros Hc.
  unfold connect, bind, try_except, record_call, modify, gets, ret, raise,
    on_connection. cbn [fst snd]. rewrite Hc. cbn [fst snd].
  repeat split.
  - intros Hs. rewrite Hs. reflexivity.
  - intros Hs c1 H1. rewrite Hs, H1. reflexivity.
  - intros Hs e c1 H1. rewrite Hs, H1. reflexivity.
  - intros Hs e c1 c2 H1 H2. rewrite Hs, H1. cbn. rewrite H2. reflexivity.
Qed.

Lemma send_config_set_raises (s : session Conn) commands exit_mode delay e :
  fst (send_config_set W self commands exit_mode delay s) = inl e ->
  exists m, e = DeviceConnectionError m.
Proof.
  unfold send_config_set, bind, record_call, modify, gets, raise. cbn.
  destruct (connection s) as [conn|]; cbn.
  - unfold try_except, on_connection. cbn.
    destruct (conn_send_config_set W commands exit_mode delay conn)
      as [[e'|out] conn']; cbn.
    + intros [= <-]. eauto.
    + discriminate.
  - intros [= <-]. eauto.
Qed.

(** X6.  [send_command] and [send_config_set] turn every exception of
    the connection into a [DeviceConnectionError] whose message carries the
    host and the text of the original; on success they return the text of
    the connection.  [save_config] and [is_alive] have no such net: on an
    open connection their outcome is that of the connection, exception
    included. *)
Theorem send_errors_are_normalised (s : session Conn) (conn : Conn) :
  connection s = Some conn ->
  (forall command expect delay,
     fst (send_command W self command expect delay s) =
     match fst (conn_send_command W command expect delay conn) with
     | inr out => inr out
     | inl e => inl (DeviceConnectionError
                  ("Error executing command on " ++ host self ++ ": " ++ str_exn e))
     end) /\
  (forall commands exit_mode delay,
     fst (send_config_set W self commands exit_mode delay s) =
     match fst (conn_send_config_set W commands exit_mode delay conn) with
     | inr out => inr out
     | inl e => inl (DeviceConnectionError
                  ("Error applying configuration on " ++ host self ++ ": " ++ str_exn e))
     end) /\
  fst (save_config W self s) = fst (conn_save_config W conn) /\
  fst (is_alive W self s) = fst (conn_is_alive W conn).
Proof.
  intros Hc. repeat split.
  - intros command expect delay.
    unfold send_command, bind, try_except, record_call, modify, gets, raise,
      on_connection. cbn. rewrite Hc.
    destruct (conn_send_command W command expect delay conn) as [[e|out] c]; reflexivity.
  - intros commands exit_mode delay.
    unfold send_config_set, bind, try_except, record_call, modify, gets, raise,
      on_connection. cbn. rewrite Hc.
    destruct (conn_send_config_set W commands exit_mode delay conn) as [[e|out] c];
      reflexivity.
  - unfold save_config, bind, record_call, modify, gets, on_connection. cbn.
    rewrite Hc. destruct (conn_save_config W conn) as [[e|out] c]; reflexivity.
  - unfold is_alive, bind, record_call, modify, gets, on_connection. cbn.
    rewrite Hc. destruct (conn_is_alive W conn) as [[e|b] c]; reflexivity.
Qed.

(** X7.  A [with] block on a device releases the session however the
    block ends: once [connect] has returned, the outcome of the statement
    is that of the block, exception included, [disconnect] has been called
    and [self.connection] is [None].  When [connect] raises, the block is
    not run and nothing is released. *)
Theorem with_device_releases {A} (body : M (session Conn) A) (s : session Conn) :
  let run := with_device W self body s in
  (forall e s1, connect W self s = (inl e, s1) -> run = (inl e, s1)) /\
  (forall b s1, connect W self s = (inr b, s1) ->
     fst run = fst (body s1) /\
     connection (snd run) = None /\
     In EvDisconnect (calls (snd run))).
Proof.
  cbv zeta. unfold with_device, bind. split.
  - intros e s1 Hc. rewrite Hc. reflexivity.
  - intros b s1 Hc. rewrite Hc.
    destruct (body s1) as [r s2]. cbn [fst].
    destruct (disconnect_resets Conn W self s2) as [Hr Hn].
    pose proof (disconnect_recorded Conn W self s2) as Hin.
    destruct (disconnect W self s2) as [[e|[]] s3]; cbn [fst snd] in *;
      [discriminate | auto].
Qed.

End Connecting.

Lemma connect_outcomes_witness :
  ConnectHandler lab_world (connect_params admin_device) = inr tt /\
  fst (connect lab_world admin_device (new_session unit)) = inr true.
Proof.
  split; [reflexivity |].
  destruct (connect_outcomes unit lab_world admin_device (new_session unit))
    as ([[H _]|[m H]] & _); [exact H | discriminate H].
Defined.

Lemma connect_enable_mode_witness :
  ConnectHandler locked_world (connect_params enable_device) = inr tt /\
  truthy (secret enable_device) = true /\
  connection (snd (connect locked_world enable_device (new_session unit))) = Some tt.
Proof.
  split; [reflexivity |]. split; [reflexivity |].
  destruct (connect_enable_mode unit locked_world enable_device (new_session unit) tt
              eq_refl) as (_ & _ & _ & H).
  rewrite (H eq_refl (ValueError "Failed to enter enable mode.") tt tt eq_refl eq_refl).
  reflexivity.
Defined.

Lemma send_errors_are_normalised_witness :
  connection open_session = Some tt /\
  fst (send_config_set refusing_world admin_device ["hostname TEST"] true 1
         open_session) =
  inl (DeviceConnectionError
         "Error applying configuration on 192.168.1.1: Invalid input detected").
Proof.
  split; [reflexivity |].
  destruct (send_errors_are_normalised unit refusing_world admin_device
              open_session tt eq_refl) as (_ & H & _).
  rewrite H. reflexivity.
Defined.

Lemma with_device_releases_witness :
  connect lab_world admin_device (new_session unit) =
    (inr true, set_connection (Some tt) (logged (new_session unit) EvConnect)) /\
  connection (snd (with_device lab_world admin_device
                     (raise (A := unit) (ValueError "boom")) (new_session unit))) = None.
Proof.
  split; [reflexivity |].
  destruct (with_device_releases unit lab_world admin_device
              (raise (A := unit) (ValueError "boom")) (new_session unit)) as (_ & H).
  destruct (H true _ eq_refl) as (_ & Hn & _). exact Hn.
Defined.

(** ** Text: occurrences, lower case, decimal numbers *)

Lemma contains_occurs (p s : string) : contains p s = true <-> occurs p s.
Proof.
  unfold occurs. induction s as [|c t IH].
  - cbn. destruct (strip_prefix p "") as [r|] eqn:Hp.
    + apply strip_prefix_iff in Hp. split; [intros _ | reflexivity].
      exists EmptyString, r. exact Hp.
    + split; [discriminate |]. intros (a & b & H).
      destruct a as [|x a]; [| discriminate].
      cbn in H. apply strip_prefix_iff in H. congruence.
  - cbn [contains]. destruct (strip_prefix p (String c t)) as [r|] eqn:Hp.
    + apply strip_prefix_iff in Hp. split; [intros _ | reflexivity].
      exists EmptyString, r. exact Hp.
    + rewrite IH. split.
      * intros (a & b & ->). exists (String c a), b. reflexivity.
      * intros (a & b & H). destruct a as [|x a].
        -- cbn in H. apply strip_prefix_iff in H. congruence.
        -- cbn in H. injection H as _ H. eauto.
Qed.

Lemma occurs_longer (x p s : string) : occurs (x ++ p) s -> occurs p s.
Proof.
  intros (a & b & ->). exists (a ++ x)%string, b.
  now rewrite !sapp_assoc.
Qed.







(** ** The point checks *)

Section PointChecks.
Variable Conn : Type.
Variable W : World Conn.
Variable device : NetworkDevice.

(** X8.  [verify_connectivity] asks the session once whether it is
    alive and never returns [False]: it returns [True] when the answer is
    [True], and raises [ValidationError] when the answer is [False] and
    when the question itself raises, whatever the exception. *)
Theorem verify_connectivity_outcomes (s : session Conn) :
  let asked := is_alive W device s in
  let run := verify_connectivity W device s in
  snd run = snd asked /\
  match fst asked with
  | inr true => fst run = inr true
  | inr false =>
      fst run = inl (ValidationError
        ("Connectivity check failed for " ++ host device ++
         ": Device " ++ host device ++ " is not reachable"))
  | inl e =>
      fst run = inl (ValidationError
        ("Connectivity check failed for " ++ host device ++ ": " ++ str_exn e))
  end.
Proof.
  cbv zeta. unfold verify_connectivity, try_except, bind.
  destruct (is_alive W device s) as [[e|[|]] s1]; cbn; split; reflexivity.
Qed.

(** X9.  [verify_config_contains] returns [True] exactly when the
    running configuration was read and the snippet occurs in it, letter
    case included; otherwise it raises [ValidationError].  The empty
    snippet is found in every configuration. *)
Theorem verify_config_contains_occurs (snippet : string) (s : session Conn) :
  let sent := send_command W device "show running-config" None 1 s in
  let run := verify_config_contains W device snippet s in
  snd run = snd sent /\
  (fst run = inr true \/ exists m, fst run = inl (ValidationError m)) /\
  (fst run = inr true <-> exists out, fst sent = inr out /\ occurs snippet out) /\
  (snippet = EmptyString -> forall out, fst sent = inr out -> fst run = inr true).
Proof.
  cbv zeta. unfold verify_config_contains, try_except, bind.
  pose proof (send_command_raises Conn W device s "show running-config" None 1)
    as Hraise.
  destruct (send_command W device "show running-config" None 1 s) as [[e|out] s1];
    cbn [fst snd] in *.
  - destruct (Hraise e eq_refl) as [m ->].
    unfold connection_error_as_validation, raise, str_exn. cbn [fst snd].
    split; [reflexivity |]. split; [right; eexists; reflexivity |]. split.
    + split; [discriminate |]. intros (out & H & _). discriminate.
    + intros _ out H. discriminate.
  - clear Hraise. pose proof (contains_occurs snippet out) as Hc.
    destruct (contains snippet out); unfold ret, raise; cbn [fst snd].
    + split; [reflexivity |]. split; [left; reflexivity |]. split.
      * split; [| reflexivity]. intros _. exists out. split; [reflexivity |].
        now apply Hc.
      * reflexivity.
    + split; [reflexivity |]. split; [right; eexists; reflexivity |]. split.
      * split; [discriminate |]. intros (out' & [= <-] & Ho).
        apply Hc in Ho. discriminate.
      * intros -> out' [= <-]. exfalso.
        assert (Ho : occurs "" out) by (exists EmptyString, out; reflexivity).
        apply Hc in Ho. discriminate.
Qed.

(** X10.  [verify_interface_status] compares the expected status without
    regard to letter case, and knows two cases only.  When it is [up], the
    check passes exactly when [line protocol is up] occurs in the output in
    lower case (the separate test for [up] adds nothing).  For any other
    expected status, whatever its spelling, the check passes exactly when
    [down] occurs in the output in lower case. *)
Theorem verify_interface_status_cases (interface expected_status : string)
    (s : session Conn) :
  let sent := send_command W device ("show interface " ++ interface) None 1 s in
  let run := verify_interface_status W device interface expected_status s in
  snd run = snd sent /\
  (fst run = inr true \/ exists m, fst run = inl (ValidationError m)) /\
  (py_lower expected_status = "up" ->
     (fst run = inr true <->
      exists out, fst sent = inr out /\
                  occurs "line protocol is up" (py_lower out))) /\
  (py_lower expected_status <> "up" ->
     (fst run = inr true <->
      exists out, fst sent = inr out /\ occurs "down" (py_lower out))).
Proof.
  cbv zeta. unfold verify_interface_status, try_except, bind.
  set (command := ("show interface " ++ interface)%string).
  pose proof (send_command_raises Conn W device s command None 1) as Hraise.
  destruct (send_command W device command None 1 s) as [[e|out] s1];
    cbn [fst snd] in *.
  - destruct (Hraise e eq_refl) as [m ->].
    unfold connection_error_as_validation, raise, str_exn. cbn [fst snd].
    split; [reflexivity |]. split; [right; eexists; reflexivity |]. split.
    + intros _. split; [discriminate |]. intros (out & H & _). discriminate.
    + intros _. split; [discriminate |]. intros (out & H & _). discriminate.
  - clear Hraise.
    pose proof (contains_occurs "up" (py_lower out)) as Hup.
    pose proof (contains_occurs "line protocol is up" (py_lower out)) as Hline.
    pose proof (contains_occurs "down" (py_lower out)) as Hdown.
    destruct (String.eqb (py_lower expected_status) "up") eqn:He.
    + apply String.eqb_eq in He.
      destruct (contains "line protocol is up" (py_lower out)) eqn:Hl.
      * assert (Hu : contains "up" (py_lower out) = true).
        { apply Hup. apply (occurs_longer "line protocol is "). now apply Hline. }
        rewrite Hu. unfold ret. cbn [andb fst snd].
        split; [reflexivity |]. split; [left; reflexivity |]. split.
        -- intros _. split; [| reflexivity]. intros _. exists out.
           split; [reflexivity | now apply Hline].
        -- intros Hne. contradiction.
      * rewrite andb_false_r. unfold raise. cbn [fst snd].
        split; [reflexivity |]. split; [right; eexists; reflexivity |]. split.
        -- intros _. split; [discriminate |]. intros (out' & [= <-] & Ho).
           apply Hline in Ho. discriminate.
        -- intros Hne. contradiction.
    + apply String.eqb_neq in He.
      destruct (contains "down" (py_lower out)) eqn:Hd; unfold ret, raise;
        cbn [fst snd].
      * split; [reflexivity |]. split; [left; reflexivity |]. split.
        -- intros Heq. contradiction.
        -- intros _. split; [| reflexivity]. intros _. exists out.
           split; [reflexivity | now apply Hdown].
      * split; [reflexivity |]. split; [right; eexists; reflexivity |]. split.
        -- intros Heq. contradiction.
        -- intros _. split; [discriminate |]. intros (out' & [= <-] & Ho).
           apply Hdown in Ho. discriminate.
Qed.

(** X11.  [verify_routing_protocol] looks the protocol up in lower case.
    For a name that is not [ospf], [eigrp] or [bgp] it raises
    [ValidationError] without sending anything: the session is as before.
    For a known name it sends the command of the table and passes exactly
    when the output has neither [not running], in any letter case, nor a
    percent sign followed by a space. *)
Theorem verify_routing_protocol_cases (protocol : string) (s : session Conn) :
  let run := verify_routing_protocol W device protocol s in
  (command_map (py_lower protocol) = None ->
     run = (inl (ValidationError ("Unknown protocol: " ++ protocol)), s)) /\
  (forall command, command_map (py_lower protocol) = Some command ->
     let sent := send_command W device command None 1 s in
     snd run = snd sent /\
     (fst run = inr true \/ exists m, fst run = inl (ValidationError m)) /\
     (fst run = inr true <->
      exists out, fst sent = inr out /\
                  ~ occurs "not running" (py_lower out) /\ ~ occurs "% " out)).
Proof.
  cbv zeta. unfold verify_routing_protocol, try_except, bind. split.
  - intros Hn. rewrite Hn. reflexivity.
  - intros command Hc. rewrite Hc.
    pose proof (send_command_raises Conn W device s command None 1) as Hraise.
    destruct (send_command W device command None 1 s) as [[e|out] s1];
      cbn [fst snd] in *.
    + destruct (Hraise e eq_refl) as [m ->].
      unfold connection_error_as_validation, raise, str_exn. cbn [fst snd].
      split; [reflexivity |]. split; [right; eexists; reflexivity |].
      split; [discriminate |]. intros (out & H & _). discriminate.
    + clear Hraise.
      pose proof (contains_occurs "not running" (py_lower out)) as Hn.
      pose proof (contains_occurs "% " out) as Hp.
      destruct (contains "not running" (py_lower out)) eqn:E1;
        [| destruct (contains "% " out) eqn:E2];
        unfold ret, raise; cbn [orb fst snd].
      * split; [reflexivity |]. split; [right; eexists; reflexivity |].
        split; [discriminate |]. intros (out' & [= <-] & Ho & _).
        exfalso. apply Ho. now apply Hn.
      * split; [reflexivity |]. split; [right; eexists; reflexivity |].
        split; [discriminate |]. intros (out' & [= <-] & _ & Ho).
        exfalso. apply Ho. now apply Hp.
      * split; [reflexivity |]. split; [left; reflexivity |].
        split; [| reflexivity]. intros _. exists out.
        split; [reflexivity |]. split; intros Ho.
        -- apply Hn in Ho. discriminate.
        -- apply Hp in Ho. discriminate.
Qed.

End PointChecks.

Lemma verify_config_contains_occurs_witness :
  fst (verify_config_contains (echo_world "hostname R1") admin_device ""
         open_session) = inr true.
Proof.
  destruct (verify_config_contains_occurs unit (echo_world "hostname R1")
              admin_device "" open_session) as (_ & _ & _ & H).
  apply (H eq_refl "hostname R1"). reflexivity.
Defined.

Lemma verify_interface_status_cases_witness :
  py_lower "UP" = "up" /\
  fst (verify_interface_status
         (echo_world "GigabitEthernet0/1 is up, Line Protocol is UP")
         admin_device "Gi0/1" "UP" open_session) = inr true.
Proof.
  split; [reflexivity |].
  destruct (verify_interface_status_cases unit
              (echo_world "GigabitEthernet0/1 is up, Line Protocol is UP")
              admin_device "Gi0/1" "UP" open_session) as (_ & _ & H & _).
  apply (H eq_refl).
  exists "GigabitEthernet0/1 is up, Line Protocol is UP".
  split; [reflexivity |].
  exists "gigabitethernet0/1 is up, ", EmptyString. reflexivity.
Defined.

Lemma verify_routing_protocol_cases_witness :
  command_map (py_lower "RIP") = None /\
  verify_routing_protocol lab_world admin_device "RIP" open_session =
    (inl (ValidationError "Unknown protocol: RIP"), open_session).
Proof.
  split; [reflexivity |].
  apply (verify_routing_protocol_cases unit lab_world admin_device "RIP" open_session).
  reflexivity.
Defined.

(** ** The validation suite *)

Section Suite.
Variable Conn : Type.
Variable W : World Conn.
Variable device : NetworkDevice.



















End Suite.



Example suite_loses_entries_on_key_error :
  fst (run_validation_suite lab_world admin_device
         [check_of_type (Some "connectivity"); check_of_type (Some "interface")]
         open_session) = inl (KeyError "interface").
Proof. reflexivity. Qed.

(** ** Parallel and sequential batches *)


Section Modes.
Variable Conn : Type.
Variable W : World Conn.
Variable self : ConfigurationTask.
Variable config_commands : option (list string).
Variable template_name : option string.
Variable template_vars_list : option (list mapping).
Variable save_config_ validate_after : bool.
Variable max_workers : Z.

Hypothesis completes_each_once :
  forall n, Permutation (seq 0 n) (completion_order W n).


End Modes.


(** ** The backup of one device *)

Section Backup.
Variable Conn : Type.
Variable W : World Conn.
Variable backup_path : string.
Variable device_info : DeviceInfo.

Lemma preserves_on_backup_session_calls {A} (ok : event -> Prop)
    (m : M (session Conn) A) :
  preserves (all_calls ok) m ->
  preserves (fun f : backup_frame Conn => all_calls ok (b_sess f))
    (on_backup_session m).
Proof.
  intros Hm f Hf. unfold on_backup_session, zoom. specialize (Hm (b_sess f) Hf).
  destruct (m (b_sess f)) as [[e|a] t]; exact Hm.
Qed.

(** X15.  A backup reads and never writes to the device: the only calls
    of [backup_single_device] are the reading of the credentials,
    [connect], [send_command] with [show running-config] and [disconnect];
    no configuration is sent or saved and no template is rendered. *)
Theorem backup_is_read_only :
  Forall backup_call (calls (b_sess (backup_single_device_frame W backup_path device_info))).
Proof.
  unfold backup_single_device_frame.
  apply (preserves_run (fun f : backup_frame Conn => all_calls backup_call (b_sess f)));
    [| constructor].
  apply preserves_try_except.
  - unfold backup_single_device_body, require_host.
    repeat first
      [ apply preserves_ret
      | apply preserves_raise
      | apply preserves_modify; intros f Hf; exact Hf
      | apply preserves_on_backup_session_calls;
        first [ apply preserves_init | apply preserves_connect
              | apply preserves_disconnect | apply preserves_send_command ];
        solve [cbn; auto]
      | apply preserves_bind; [| intros ?]
      | match goal with
        | |- preserves _ (match ?x with _ => _ end) => destruct x
        end ].
  - intros e. apply preserves_modify. intros f Hf. exact Hf.
Qed.


End Backup.

(** ** What one run of [configure_device] may call *)

Section Flags.
Variable Conn : Type.
Variable W : World Conn.

Lemma preserves_device_facts (ok : event -> Prop) (device : NetworkDevice) :
  ok (EvSendCommand "show version") ->
  ok (EvSendCommand "show running-config | include hostname") ->
  preserves (all_calls ok) (get_device_info W device).
Proof.
  intros H1 H2. unfold get_device_info, get_device_info_body.
  apply preserves_try_except; [| intros e; apply preserves_ret].
  apply preserves_bind; [now apply preserves_send_command | intros vo].
  apply preserves_bind; [now apply preserves_send_command | intros ho].
  apply preserves_ret.
Qed.

(** X17.  The flags of a run bound what it does on the device.  Nothing
    is sent and nothing is saved in a dry run; [save_config] is called only
    when saving was asked for; the validator is called only when validation
    was asked for, outside a dry run, and sends no command but [show
    version] and [show running-config | include hostname]; a template is
    rendered only if both its name and its variables are non-empty, and
    then with exactly those. *)
Theorem calls_follow_flags (self : ConfigurationTask) (device_info : DeviceInfo)
    (config_commands : option (list string)) (template_name : option string)
    (template_vars : option mapping) (save_config_ validate_after : bool) :
  Forall (permitted_call self template_name template_vars save_config_ validate_after)
    (calls (sess (configure_device_frame W self device_info config_commands
                    template_name template_vars save_config_ validate_after))).
Proof.
  unfold configure_device_frame.
  apply (preserves_run
           (fun f : frame Conn =>
              all_calls (permitted_call self template_name template_vars
                           save_config_ validate_after) (sess f)));
    [| constructor].
  apply preserves_try_except; [| intros e; apply preserves_update_result_calls].
  unfold configure_device_body, require_host.
  destruct (dry_run self) eqn:Hdry, save_config_, validate_after,
    template_name as [[|c name]|], template_vars as [[|x variables]|];
    cbn [truthy truthy_list andb negb get_default].
  all: repeat first
    [ apply preserves_ret
    | apply preserves_raise
    | apply preserves_update_result_calls
    | apply preserves_on_session_calls;
      first [ apply preserves_init | apply preserves_connect
            | apply preserves_disconnect | apply preserves_render_template
            | apply preserves_send_config_set | apply preserves_save_config
            | apply preserves_verify_connectivity
            | apply preserves_device_facts ];
      solve [cbn; rewrite ?Hdry; auto 6]
    | apply preserves_bind; [| intros ?]
    | match goal with
      | |- preserves _ (match ?x with _ => _ end) => destruct x
      end ].
Qed.

End Flags.

Lemma configure_device_releases_on_success_witness :
  success (result (configure_device_frame lab_world config_task device1
                     (Some ["hostname TEST"]) None None true true)) = true /\
  released (configure_device_frame lab_world config_task device1
              (Some ["hostname TEST"]) None None true true).
Proof.
  split; [reflexivity |].
  apply (configure_device_releases_on_success unit lab_world config_task device1
           (Some ["hostname TEST"]) None None true true).
  reflexivity.
Defined.

(** ** The commands of a rendered template *)

Lemma split_lines_not_empty (s : string) : split_lines s <> [].
Proof.
  destruct s as [|c t]; cbn; [discriminate |].
  destruct (code c =? 10)%nat; [discriminate |].
  destruct (split_lines t); discriminate.
Qed.

Lemma line_feed (c : ascii) : (code c =? 10)%nat = true -> c = "010"%char.
Proof.
  intros H. apply Nat.eqb_eq in H. unfold code in H.
  rewrite <- (ascii_nat_embedding c), H. reflexivity.
Qed.

Lemma join_split_lines (s : string) : join_lines (split_lines s) = s.
Proof.
  induction s as [|c t IH]; [reflexivity |].
  cbn [split_lines]. destruct (code c =? 10)%nat eqn:E.
  - apply line_feed in E. subst c.
    pose proof (split_lines_not_empty t) as Hne.
    destruct (split_lines t) as [|l ls]; [contradiction |].
    cbn [join_lines] in *. cbn. now rewrite IH.
  - pose proof (split_lines_not_empty t) as Hne.
    destruct (split_lines t) as [|l ls]; [contradiction |].
    rewrite <- IH. destruct ls; reflexivity.
Qed.

Lemma split_lines_no_line_feed (s : string) :
  Forall (fun l => all_chars is_dot l = true) (split_lines s).
Proof.
  induction s as [|c t IH]; cbn [split_lines].
  - repeat constructor.
  - destruct (code c =? 10)%nat eqn:E.
    + constructor; [reflexivity | exact IH].
    + destruct (split_lines t) as [|l ls].
      * repeat constructor. cbn. unfold is_dot. now rewrite E.
      * inversion IH; subst. constructor; [| assumption].
        cbn. unfold is_dot at 1. rewrite E. assumption.
Qed.

Lemma lstrip_blank (s : string) : all_chars is_space s = true -> lstrip s = EmptyString.
Proof.
  induction s as [|c t IH]; cbn; [reflexivity |].
  intros H. apply andb_true_iff in H as [Hc Ht]. rewrite Hc. auto.
Qed.

(** X18.  The commands taken from a rendered template, the lines of the
    text without its surrounding white space, are never an empty list, so
    that the guard against a missing payload cannot fire once a template is
    rendered: a text of white space only gives the single empty command.
    Joined by line feeds the commands give back the stripped text, and no
    command holds a line feed. *)
Theorem rendered_commands_are_the_lines (config_text : string) :
  let commands := split_lines (strip config_text) in
  truthy_list (Some commands) = true /\
  join_lines commands = strip config_text /\
  Forall (fun l => all_chars is_dot l = true) commands /\
  (all_chars is_space config_text = true -> commands = [EmptyString]).
Proof.
  cbv zeta. split; [| split; [| split]].
  - pose proof (split_lines_not_empty (strip config_text)).
    destruct (split_lines (strip config_text)); [contradiction | reflexivity].
  - apply join_split_lines.
  - apply split_lines_no_line_feed.
  - intros H. unfold strip. rewrite (lstrip_blank _ H). reflexivity.
Qed.

Lemma rendered_commands_are_the_lines_witness :
  all_chars is_space (String "010" "  ") = true /\
  split_lines (strip (String "010" "  ")) = [EmptyString].
Proof.
  split; [reflexivity |].
  apply (rendered_commands_are_the_lines (String "010" "  ")). reflexivity.
Defined.

(** ** The order of the calls *)

Lemma upto_snoc (k : nat) (l : list event) (e : event) :
  upto k l -> (k <= phase e)%nat -> upto (phase e) (l ++ [e]).
Proof.
  intros [Ho Hk] He. split.
  - induction l as [|a l IH]; cbn; [auto |].
    destruct Ho as [Ha Ho]. inversion Hk as [|? ? Hak Hk']; subst. split.
    + apply Forall_app. split; [exact Ha |]. repeat constructor. lia.
    + now apply IH.
  - apply Forall_app. split.
    + eapply Forall_impl; [| exact Hk]. cbn. intros a Ha. lia.
    + repeat constructor.
Qed.

Lemma upto_mono (k k' : nat) (l : list event) :
  (k <= k')%nat -> upto k l -> upto k' l.
Proof.
  intros Hle [Ho Hk]. split; [exact Ho |].
  eapply Forall_impl; [| exact Hk]. cbn. intros a Ha. lia.
Qed.

Lemma in_order_pairs (l : list event) :
  in_order l ->
  forall l1 a l2 b l3, l = l1 ++ a :: l2 ++ b :: l3 -> (phase a <= phase b)%nat.
Proof.
  intros Ho l1. revert l Ho. induction l1 as [|x l1 IH]; intros l Ho a l2 b l3 ->.
  - cbn in Ho. destruct Ho as [Ha _]. rewrite Forall_forall in Ha.
    apply Ha. apply in_or_app. right. left. reflexivity.
  - cbn in Ho. destruct Ho as [_ Ho]. eapply IH; [exact Ho | reflexivity].
Qed.

Section Order.
Variable Conn : Type.
Variable W : World Conn.

Lemma record_call_upto (k : nat) (e : event) (E : exn -> session Conn -> Prop) :
  (k <= phase e)%nat ->
  triple (on_calls (upto k)) (record_call e)
    (fun _ => on_calls (upto (phase e))) E.
Proof.
  intros He. apply triple_modify. intros s Hs. unfold on_calls, logged in *.
  cbn [calls]. now apply (upto_snoc k).
Qed.

Lemma keeps_on_connection {A} (P : list event -> Prop)
    (f : Conn -> (exn + A) * Conn) (conn : Conn) :
  preserves (on_calls P) (on_connection f conn).
Proof.
  intros s Hs. unfold on_connection. destruct (f conn) as [[e|a] conn']; exact Hs.
Qed.

Lemma keeps_set_connection (P : list event -> Prop) (c : option Conn) :
  preserves (on_calls P) (modify (set_connection c)).
Proof. apply preserves_modify. intros s Hs. exact Hs. Qed.

Ltac keeps :=
  repeat first
    [ apply preserves_ret
    | apply preserves_raise
    | apply preserves_gets
    | apply keeps_set_connection
    | apply keeps_on_connection
    | apply preserves_bind; [| intros ?]
    | apply preserves_try_except; [| intros ?]
    | eapply triple_try_finally; [| intros ? ? Hs; exact Hs | intros ? ? Hs; exact Hs]
    | match goal with
      | |- preserves _ (match ?x with _ => _ end) => destruct x
      end ].

(** A method that records its call and then talks to the connection. *)
Lemma recorded_then {A} (k : nat) (e : event) (rest : M (session Conn) A) :
  (k <= phase e)%nat ->
  preserves (on_calls (upto (phase e))) rest ->
  triple (on_calls (upto k)) (record_call e ;;; rest)
    (fun _ => on_calls (upto (phase e))) (fun _ => on_calls (upto (phase e))).
Proof.
  intros He Hrest. eapply triple_bind; [now apply record_call_upto |].
  intros ?. exact Hrest.
Qed.

Lemma init_upto h dt p u pw sec :
  preserves (on_calls (upto 0)) (NetworkDevice_init W h dt p u pw sec).
Proof.
  unfold NetworkDevice_init.
  apply preserves_bind; [apply keeps_set_connection | intros _].
  destruct (negb (truthy u) || negb (truthy pw)); [| apply preserves_ret].
  apply (recorded_then 0 EvGetCredentials); [cbn; lia |]. keeps.
Qed.

Lemma connect_upto (k : nat) (self : NetworkDevice) :
  (k <= 1)%nat ->
  triple (on_calls (upto k)) (connect W self)
    (fun _ => on_calls (upto 1)) (fun _ => on_calls (upto 1)).
Proof. intros Hk. unfold connect. apply (recorded_then k EvConnect); [exact Hk |]. keeps. Qed.

Lemma render_upto (k : nat) name variables :
  (k <= 2)%nat ->
  triple (on_calls (upto k)) (render_template W name variables)
    (fun _ => on_calls (upto 2)) (fun _ => on_calls (upto 2)).
Proof.
  intros Hk. unfold render_template.
  apply (recorded_then k (EvRenderTemplate name variables)); [exact Hk |]. keeps.
Qed.

Lemma send_config_set_upto (k : nat) (self : NetworkDevice) commands exit_mode delay :
  (k <= 3)%nat ->
  triple (on_calls (upto k)) (send_config_set W self commands exit_mode delay)
    (fun _ => on_calls (upto 3)) (fun _ => on_calls (upto 3)).
Proof.
  intros Hk. unfold send_config_set.
  apply (recorded_then k (EvSendConfigSet commands)); [exact Hk |]. keeps.
Qed.

Lemma save_config_upto (k : nat) (self : NetworkDevice) :
  (k <= 4)%nat ->
  triple (on_calls (upto k)) (save_config W self)
    (fun _ => on_calls (upto 4)) (fun _ => on_calls (upto 4)).
Proof.
  intros Hk. unfold save_config. apply (recorded_then k EvSaveConfig); [exact Hk |]. keeps.
Qed.

Lemma is_alive_upto (k : nat) (self : NetworkDevice) :
  (k <= 5)%nat ->
  triple (on_calls (upto k)) (is_alive W self)
    (fun _ => on_calls (upto 5)) (fun _ => on_calls (upto 5)).
Proof.
  intros Hk. unfold is_alive. apply (recorded_then k EvIsAlive); [exact Hk |]. keeps.
Qed.

Lemma send_command_upto (k : nat) (self : NetworkDevice) command expect delay :
  (k <= 6)%nat ->
  triple (on_calls (upto k)) (send_command W self command expect delay)
    (fun _ => on_calls (upto 6)) (fun _ => on_calls (upto 6)).
Proof.
  intros Hk. unfold send_command.
  apply (recorded_then k (EvSendCommand command)); [exact Hk |]. keeps.
Qed.

Lemma disconnect_upto (k : nat) (self : NetworkDevice) :
  (k <= 7)%nat ->
  triple (on_calls (upto k)) (disconnect W self)
    (fun _ => on_calls (upto 7)) (fun _ => on_calls (upto 7)).
Proof.
  intros Hk. unfold disconnect. apply (recorded_then k EvDisconnect); [exact Hk |]. keeps.
Qed.

Lemma verify_connectivity_upto (k : nat) (self : NetworkDevice) :
  (k <= 5)%nat ->
  triple (on_calls (upto k)) (verify_connectivity W self)
    (fun _ => on_calls (upto 5)) (fun _ => on_calls (upto 5)).
Proof.
  intros Hk. unfold verify_connectivity.
  eapply triple_try_except.
  - eapply triple_bind; [now apply is_alive_upto |].
    intros [|]; [apply preserves_ret | apply preserves_raise].
  - intros e. apply preserves_raise.
Qed.

Lemma get_device_info_upto (k : nat) (self : NetworkDevice) :
  (k <= 6)%nat ->
  triple (on_calls (upto k)) (get_device_info W self)
    (fun _ => on_calls (upto 6)) (fun _ => on_calls (upto 6)).
Proof.
  intros Hk. unfold get_device_info, get_device_info_body.
  eapply triple_try_except.
  - eapply triple_bind; [now apply send_command_upto |]. intros vo.
    eapply triple_bind; [apply (send_command_upto 6); lia |]. intros ho.
    apply preserves_ret.
  - intros e. apply preserves_ret.
Qed.

(** On the frame of a task: the stage moves from [k] to [k'], and an
    exception leaves the calls in order. *)
Lemma stage {A} (k k' : nat) (m : M (session Conn) A) :
  (k' <= 7)%nat ->
  triple (on_calls (upto k)) m (fun _ => on_calls (upto k')) (fun _ => on_calls (upto k')) ->
  triple (fun f : frame Conn => upto k (calls (sess f))) (on_session m)
    (fun _ f => upto k' (calls (sess f)))
    (fun _ f => upto 7 (calls (sess f))).
Proof.
  intros Hk Hm f Hf. unfold on_session, zoom. specialize (Hm (sess f) Hf).
  destruct (m (sess f)) as [[e|a] t]; cbn; [| exact Hm].
  eapply upto_mono; [exact Hk | exact Hm].
Qed.

Lemma stage_result (k k' : nat) (g : OperationResult -> OperationResult)
    (E : exn -> frame Conn -> Prop) :
  (k <= k')%nat ->
  triple (fun f : frame Conn => upto k (calls (sess f))) (update_result g)
    (fun _ f => upto k' (calls (sess f))) E.
Proof.
  intros Hk. apply triple_modify. intros f Hf. cbn. eapply upto_mono; eauto.
Qed.

Lemma stage_ret {A} (k k' : nat) (a : A) (E : exn -> frame Conn -> Prop) :
  (k <= k')%nat ->
  triple (fun f : frame Conn => upto k (calls (sess f))) (ret a)
    (fun _ f => upto k' (calls (sess f))) E.
Proof. intros Hk. apply triple_ret. intros f Hf. eapply upto_mono; eauto. Qed.

Lemma stage_raise {A} (k : nat) (e : exn) (Q : A -> frame Conn -> Prop) :
  (k <= 7)%nat ->
  triple (fun f : frame Conn => upto k (calls (sess f))) (raise e) Q
    (fun _ f => upto 7 (calls (sess f))).
Proof. intros Hk. apply triple_raise. intros f Hf. eapply upto_mono; eauto. Qed.

Lemma body_in_order (self : ConfigurationTask) (device_info : DeviceInfo)
    (config_commands : option (list string)) (template_name : option string)
    (template_vars : option mapping) (save_config_ validate_after : bool) :
  triple (fun f : frame Conn => upto 0 (calls (sess f)))
    (configure_device_body W self device_info config_commands template_name
       template_vars save_config_ validate_after)
    (fun _ f => upto 7 (calls (sess f)))
    (fun _ f => upto 7 (calls (sess f))).
Proof.
  unfold configure_device_body, require_host.
  eapply triple_bind with (Q1 := fun _ f => upto 0 (calls (sess f))).
  { destruct (di_host device_info); [apply stage_ret | apply stage_raise]; lia. }
  intros h. eapply triple_bind.
  { apply (stage 0 0); [lia | apply init_upto]. }
  intros device. eapply triple_bind.
  { apply (stage 0 1); [lia | apply connect_upto; lia]. }
  intros ?. eapply triple_bind with (Q1 := fun _ f => upto 2 (calls (sess f))).
  { destruct (truthy template_name && truthy_list template_vars).
    - eapply triple_bind; [apply (stage 1 2); [lia | apply render_upto; lia] |].
      intros text. apply stage_ret. lia.
    - apply stage_ret. lia. }
  intros commands.
  destruct (negb (truthy_list commands)); [apply stage_raise; lia |].
  eapply triple_bind with (Q1 := fun _ f => upto 4 (calls (sess f))).
  { destruct (dry_run self); [apply stage_result; lia |].
    eapply triple_bind; [apply (stage 2 3); [lia | apply send_config_set_upto; lia] |].
    intros out. eapply triple_bind; [apply (stage_result 3 3); lia |].
    intros ?. destruct save_config_; [| apply stage_ret; lia].
    eapply triple_bind; [apply (stage 3 4); [lia | apply save_config_upto; lia] |].
    intros so. apply stage_result. lia. }
  intros ?. eapply triple_bind with (Q1 := fun _ f => upto 6 (calls (sess f))).
  { destruct (validate_after && negb (dry_run self)); [| apply stage_ret; lia].
    eapply triple_bind; [apply (stage 4 5); [lia | apply verify_connectivity_upto; lia] |].
    intros c. eapply triple_bind;
      [apply (stage 5 6); [lia | apply get_device_info_upto; lia] |].
    intros info. apply stage_result. lia. }
  intros ?. eapply triple_bind.
  { apply (stage 6 7); [lia | apply disconnect_upto; lia]. }
  intros ?. eapply triple_bind; [apply (stage_result 7 7); lia |].
  intros ?. apply stage_result. lia.
Qed.

(** X19.  Within one run of [configure_device] the calls follow the life
    of the session: reading the credentials, [connect], rendering the
    template, [send_config_set], [save_config], the liveness check, the
    commands of the validator, [disconnect].  Of any two calls, the later
    one is never of an earlier stage than the first, whether the run
    succeeds or fails. *)
Theorem calls_follow_the_lifecycle (self : ConfigurationTask)
    (device_info : DeviceInfo) (config_commands : option (list string))
    (template_name : option string) (template_vars : option mapping)
    (save_config_ validate_after : bool) :
  forall l1 a l2 b l3,
    calls (sess (configure_device_frame W self device_info config_commands
                   template_name template_vars save_config_ validate_after)) =
      l1 ++ a :: l2 ++ b :: l3 ->
    (phase a <= phase b)%nat.
Proof.
  apply in_order_pairs.
  unfold configure_device_frame, try_except.
  assert (H0 : upto 0 (calls (sess (initial_frame Conn device_info))))
    by (split; constructor).
  pose proof (body_in_order self device_info config_commands template_name
                template_vars save_config_ validate_after _ H0) as H.
  destruct (configure_device_body W self device_info config_commands template_name
              template_vars save_config_ validate_after (initial_frame Conn device_info))
    as [[e|[]] f]; cbn [snd]; apply H.
Qed.

End Order.

Lemma calls_follow_the_lifecycle_witness :
  calls (sess (configure_device_frame lab_world config_task device1
                 (Some ["hostname TEST"]) None None true false)) =
    [] ++ EvConnect :: [EvSendConfigSet ["hostname TEST"]] ++
          EvSaveConfig :: [EvDisconnect] /\
  (phase EvConnect <= phase EvSaveConfig)%nat.
Proof.
  split; [reflexivity |].
  apply (calls_follow_the_lifecycle unit lab_world config_task device1
           (Some ["hostname TEST"]) None None true false
           [] EvConnect [EvSendConfigSet ["hostname TEST"]] EvSaveConfig [EvDisconnect]).
  reflexivity.
Defined.

(** A full run with saving and validation, and a backup. *)
Example full_run_calls :
  calls (sess (configure_device_frame lab_world config_task device1
                 (Some ["hostname TEST"]) None None true true)) =
  [EvConnect; EvSendConfigSet ["hostname TEST"]; EvSaveConfig; EvIsAlive;
   EvSendCommand "show version";
   EvSendCommand "show running-config | include hostname"; EvDisconnect].
Proof. reflexivity. Qed.

Example backup_of_device1 :
  backup_single_device lab_world "backups" device1 =
  {| b_host := "192.168.1.1"; b_success := true;
     b_message := "Backup completed successfully";
     b_file := "backups/192.168.1.1_20240101_000000.cfg" |}.
Proof. reflexivity. Qed.
